(** * MonPy: a shallow embedding of [monday_class.py]

    The Python module wraps the Monday.com GraphQL API: [boardGen] keeps a
    JSON file of board configurations, [importBoardColumns] builds the
    title -> {id, index} column map, and the [Board] class creates items,
    updates single columns and bulk-imports spreadsheet rows.

    Conventions of the embedding:
    - Python [str] is [string]; a character is its code point below 256.
    - Python [None] in an optional position is [None : option _].
    - Dictionaries whose iteration order is observable (the boards of the
      configuration file, the payload handed to [json.dumps], a data-frame
      row) are insertion-ordered association lists; the column map, which is
      only ever looked up by title, is a [gmap].
    - Code that can raise runs in a state-and-exception monad over the
      outside world (remote API, configuration file, standard input).
    - [print] has no effect on any result and is left out. *)

From Stdlib Require Import ZArith Ascii String List Lia.
From stdpp Require Import gmap strings list pretty.

Local Open Scope Z_scope.

(** ** Python string primitives *)

Module Py.

(** [str.isspace] on a single character (code points below 256). *)
Definition isspace (c : ascii) : bool :=
  let n := nat_of_ascii c in
  ((9 <=? n) && (n <=? 13) || (28 <=? n) && (n <=? 32)
   || (n =? 133) || (n =? 160))%nat.

Fixpoint lstrip (s : string) : string :=
  match s with
  | EmptyString => EmptyString
  | String c r => if isspace c then lstrip r else s
  end.

Fixpoint rstrip (s : string) : string :=
  match s with
  | EmptyString => EmptyString
  | String c r =>
      match rstrip r with
      | EmptyString => if isspace c then EmptyString else String c EmptyString
      | r' => String c r'
      end
  end.

(** [s.strip()] *)
Definition strip (s : string) : string := rstrip (lstrip s).

(** Truth value of a string: non-empty. *)
Definition truthy (s : string) : bool :=
  match s with EmptyString => false | _ => true end.

(** [c in s] for a one-character string [c]. *)
Fixpoint contains (c : ascii) (s : string) : bool :=
  match s with
  | EmptyString => false
  | String d r => if Ascii.eqb d c then true else contains c r
  end.

(** [s.split(sep)] for a one-character separator: every occurrence cuts,
    empty pieces are kept, the result is never empty. *)
Fixpoint split (sep : ascii) (s : string) : list string :=
  match s with
  | EmptyString => [EmptyString]
  | String c r =>
      if Ascii.eqb c sep then EmptyString :: split sep r
      else match split sep r with
           | p :: ps => String c p :: ps
           | [] => [String c EmptyString]
           end
  end.

Fixpoint zeros (n : nat) : string :=
  match n with O => EmptyString | S k => String "0" (zeros k) end.

(** [s.zfill(width)]: pad with zeros on the left, after a leading sign. *)
Definition zfill (width : nat) (s : string) : string :=
  if (width <=? String.length s)%nat then s
  else
    let fill := zeros (width - String.length s) in
    match s with
    | String c r =>
        if Ascii.eqb c "+" || Ascii.eqb c "-" then String c (fill +:+ r)
        else fill +:+ s
    | EmptyString => fill
    end.

(** [s.startswith(p)] *)
Definition startswith (p s : string) : bool := String.prefix p s.

(** [p in s] for strings: substring test. *)
Definition substring_in (p s : string) : bool :=
  match String.index 0 p s with Some _ => true | None => false end.

End Py.

(** ** Cell values of a data frame

    A cell read by pandas is a missing value, a text or an integer (floating
    point cells are outside the embedding). *)

Inductive cell : Type :=
| NaN
| Text (s : string)
| Int (z : Z).

(** [pd.notna(value)] *)
Definition notna (v : cell) : bool :=
  match v with NaN => false | _ => true end.

(** [str(value)] *)
Definition str (v : cell) : string :=
  match v with
  | NaN => "nan"
  | Text s => s
  | Int z => pretty z
  end.

(** ** Insertion-ordered dictionaries *)

Section Dict.
Context {K V : Type} `{EqDecision K}.

(** [d[k]], [None] standing for the [KeyError]. *)
Fixpoint dict_get (k : K) (d : list (K * V)) : option V :=
  match d with
  | [] => None
  | (k', v) :: r => if decide (k' = k) then Some v else dict_get k r
  end.

(** [d[k] = v]: an existing key keeps its position, a new one goes last. *)
Fixpoint dict_set (k : K) (v : V) (d : list (K * V)) : list (K * V) :=
  match d with
  | [] => [(k, v)]
  | (k', v') :: r =>
      if decide (k' = k) then (k, v) :: r else (k', v') :: dict_set k v r
  end.

(** [k in d] *)
Definition dict_mem (k : K) (d : list (K * V)) : bool :=
  match dict_get k d with Some _ => true | None => false end.

(** [dict(pairs)]: what [json.load] makes of an object's members. *)
Definition dict_of_pairs (ps : list (K * V)) : list (K * V) :=
  fold_left (fun d kv => dict_set (fst kv) (snd kv) d) ps [].
End Dict.

(** ** JSON values and [json.dumps] of the item payload *)

#[local] Unset Elimination Schemes.
Inductive json : Type :=
| JNull
| JBool (b : bool)
| JNum (n : Z)
| JStr (s : string)
| JArr (l : list json)
| JObj (kvs : list (string * json)).
#[local] Set Elimination Schemes.

(** A value of [monday_column_values]: a plain string, or [{"date": d}]. *)
Inductive payload : Type :=
| PText (s : string)
| PDate (d : string).

Module Dumps.

Definition hex_digit (n : nat) : ascii :=
  match n with
  | 0 => "0" | 1 => "1" | 2 => "2" | 3 => "3" | 4 => "4" | 5 => "5"
  | 6 => "6" | 7 => "7" | 8 => "8" | 9 => "9" | 10 => "a" | 11 => "b"
  | 12 => "c" | 13 => "d" | 14 => "e" | _ => "f"
  end%nat%char.

(** The double quote and the backslash, by code point. *)
Definition dquote : ascii := ascii_of_nat 34.
Definition backslash : ascii := ascii_of_nat 92.

(** One character of a string under [ensure_ascii=True]: the short
    escapes, [\u00xx] for everything outside [' '..'~'], itself otherwise. *)
Definition escape_char (c : ascii) : string :=
  let n := nat_of_ascii c in
  if (n =? 34)%nat then String backslash (String dquote EmptyString)
  else if (n =? 92)%nat then String backslash (String backslash EmptyString)
  else if (n =? 10)%nat then String backslash "n"
  else if (n =? 13)%nat then String backslash "r"
  else if (n =? 9)%nat then String backslash "t"
  else if (n =? 8)%nat then String backslash "b"
  else if (n =? 12)%nat then String backslash "f"
  else if ((32 <=? n) && (n <=? 126))%nat then String c EmptyString
  else String backslash ("u00" +:+
         String (hex_digit (n / 16)) (String (hex_digit (n mod 16)) EmptyString)).

Fixpoint escape (s : string) : string :=
  match s with
  | EmptyString => EmptyString
  | String c r => escape_char c +:+ escape r
  end.

Definition quote : string := String dquote EmptyString.

Definition dumps_str (s : string) : string := quote +:+ escape s +:+ quote.

Definition dumps_payload (p : payload) : string :=
  match p with
  | PText s => dumps_str s
  | PDate d => "{" +:+ dumps_str "date" +:+ ": " +:+ dumps_str d +:+ "}"
  end.

Definition dumps_member (kv : string * payload) : string :=
  dumps_str (fst kv) +:+ ": " +:+ dumps_payload (snd kv).

Fixpoint join (sep : string) (l : list string) : string :=
  match l with
  | [] => EmptyString
  | [x] => x
  | x :: r => x +:+ sep +:+ join sep r
  end.

(** [json.dumps(monday_column_values)] *)
Definition dumps (d : list (string * payload)) : string :=
  "{" +:+ join ", " (map dumps_member d) +:+ "}".

End Dumps.

(** ** Exceptions and the state-and-exception monad *)

Inductive exn : Type :=
| RequestException
| JSONDecodeError
| OSError
| EOFError
| KeyError
| IndexError
| TypeError
| ValueError.

Inductive result (A : Type) : Type :=
| Return (a : A)
| Raise (e : exn).
Arguments Return {A} a.
Arguments Raise {A} e.

(** A computation over a state [S]: it returns or raises, and in both cases
    leaves the state it reached (what was done before a [raise] stays done). *)
Definition M (S A : Type) : Type := S -> result A * S.

Definition ret {S A} (a : A) : M S A := fun s => (Return a, s).

Definition raise {S A} (e : exn) : M S A := fun s => (Raise e, s).

Definition bind {S A B} (m : M S A) (k : A -> M S B) : M S B :=
  fun s =>
    match m s with
    | (Return a, s') => k a s'
    | (Raise e, s') => (Raise e, s')
    end.

(** [try: m  except Exception as e: h e] *)
Definition try_catch {S A} (m : M S A) (h : exn -> M S A) : M S A :=
  fun s =>
    match m s with
    | (Return a, s') => (Return a, s')
    | (Raise e, s') => h e s'
    end.

Definition gets {S A} (f : S -> A) : M S A := fun s => (Return (f s), s).

Definition modify {S} (f : S -> S) : M S unit := fun s => (Return tt, f s).

Definition lift_result {S A} (r : result A) : M S A := fun s => (r, s).

Notation "x <- m ;; k" := (bind m (fun x => k))
  (at level 100, m at next level, right associativity).
Notation "m ;; k" := (bind m (fun _ => k))
  (at level 100, right associativity).

(** [for x in l: f x] *)
Fixpoint for_each {S A} (f : A -> M S unit) (l : list A) : M S unit :=
  match l with
  | [] => ret tt
  | x :: r => f x ;; for_each f r
  end.

(** ** Data model *)

(** One record of the schema response: [{id, title}]. *)
Record ColumnRecord : Type := { col_id : string; col_title : string }.

(** A value of the column map: [{'id': ..., 'index': ...}]. *)
Record ColumnInfo : Type := { id : string; index : Z }.

Record Properties : Type := {
  p_apiKey : option string;
  p_apiUrl : string;
  p_headers : list (string * option string);
  p_board : option string
}.

(** An entry of [fileDict['Boards']]. *)
Record BoardEntry : Type := {
  e_name : string;
  e_id : option string;
  properties : Properties;
  columns : gmap string ColumnInfo
}.

(** [fileDict]: only the ['Boards'] key is ever used; [None] when absent.
    In memory the key of a board can be [None]; in the file it is text. *)
Record FileDict : Type := {
  Boards : option (list (option string * BoardEntry))
}.

(** What [open(fileName, 'r')] and [json.load] find in the file. *)
Inductive FileContent : Type :=
| Missing
| Malformed
| Parsed (boards : option (list (string * BoardEntry))).

(** The [variables] of the create-item mutation. *)
Record Variables : Type := {
  boardId : option string;
  itemName : string;
  columnValues : string
}.

(** The arguments of a [requests.post] call. *)
Record Request : Type := {
  url : string;
  headers : list (string * option string);
  query : string;
  variables : option Variables
}.

(** A [requests.Response]: [body] is what [response.json()] decodes,
    [None] when decoding fails. *)
Record Response : Type := {
  status_code : Z;
  text : string;
  body : option json
}.

(** The world outside the program. [remote n req] is the outcome of the
    [n]-th [requests.post] (counted from 0) when it carries [req];
    [columns_reply n apiKey board] is what the [n]-th schema query yields
    once decoded and indexed by [['data']['boards'][0]['columns']], or the
    exception raised on the way. [sent], [schema_queries] and [prompts] log
    what the program did, oldest first. *)
Record World : Type := {
  remote : nat -> Request -> result Response;
  sent : list Request;
  columns_reply : nat -> option string -> option string -> result (list ColumnRecord);
  schema_queries : list (option string * option string);
  file : FileContent;
  stdin : list string;
  prompts : list string
}.

Definition log_request (req : Request) (w : World) : World :=
  {| remote := remote w; sent := sent w ++ [req];
     columns_reply := columns_reply w; schema_queries := schema_queries w;
     file := file w; stdin := stdin w; prompts := prompts w |}.

Definition log_schema_query (q : option string * option string) (w : World) : World :=
  {| remote := remote w; sent := sent w;
     columns_reply := columns_reply w; schema_queries := schema_queries w ++ [q];
     file := file w; stdin := stdin w; prompts := prompts w |}.

Definition set_file (f : FileContent) (w : World) : World :=
  {| remote := remote w; sent := sent w;
     columns_reply := columns_reply w; schema_queries := schema_queries w;
     file := f; stdin := stdin w; prompts := prompts w |}.

Definition log_prompt (p : string) (rest : list string) (w : World) : World :=
  {| remote := remote w; sent := sent w;
     columns_reply := columns_reply w; schema_queries := schema_queries w;
     file := file w; stdin := rest; prompts := prompts w ++ [p] |}.

(** [requests.post(url=..., json=..., headers=...)] *)
Definition post (req : Request) : M World Response :=
  fun w => (remote w (length (sent w)) req, log_request req w).

(** [response.json()] *)
Definition response_json (r : Response) : result json :=
  match body r with
  | Some v => Return v
  | None => Raise JSONDecodeError
  end.

(** [input(prompt)]: the prompt is shown, then a line is read. *)
Definition input (prompt : string) : M World string :=
  fun w =>
    match stdin w with
    | [] => (Raise EOFError, log_prompt prompt [] w)
    | line :: rest => (Return line, log_prompt prompt rest w)
    end.

(** ** importBoardColumns *)

Definition apiUrl_v2 : string := "https://api.monday.com/v2".

(** The loop of [importBoardColumns]: [columnDict] and the running [x]. *)
Definition add_column (st : gmap string ColumnInfo * Z) (column : ColumnRecord)
  : gmap string ColumnInfo * Z :=
  (<[col_title column := {| id := col_id column; index := snd st |}]> (fst st),
   snd st + 1).

Definition column_dict (boardColumns : list ColumnRecord) : gmap string ColumnInfo :=
  fst (fold_left add_column boardColumns (∅, -1)).

Definition importBoardColumns (apiKey board : option string)
  : M World (gmap string ColumnInfo) :=
  fun w =>
    let w' := log_schema_query (apiKey, board) w in
    match columns_reply w (length (schema_queries w)) apiKey board with
    | Return boardColumns => (Return (column_dict boardColumns), w')
    | Raise e => (Raise e, w')
    end.

(** ** boardGen *)

(** The local variables of [boardGen], next to the world it acts on. *)
Record Frame : Type := {
  world : World;
  l_boardID : option string;
  l_apiKey : option string;
  l_fileDict : FileDict
}.

Definition set_world (w : World) (f : Frame) : Frame :=
  {| world := w; l_boardID := l_boardID f; l_apiKey := l_apiKey f;
     l_fileDict := l_fileDict f |}.

Definition set_boardID (b : option string) (f : Frame) : Frame :=
  {| world := world f; l_boardID := b; l_apiKey := l_apiKey f;
     l_fileDict := l_fileDict f |}.

Definition set_apiKey (k : option string) (f : Frame) : Frame :=
  {| world := world f; l_boardID := l_boardID f; l_apiKey := k;
     l_fileDict := l_fileDict f |}.

Definition set_fileDict (d : FileDict) (f : Frame) : Frame :=
  {| world := world f; l_boardID := l_boardID f; l_apiKey := l_apiKey f;
     l_fileDict := d |}.

(** Run a computation on the world from inside [boardGen]. *)
Definition liftW {A} (m : M World A) : M Frame A :=
  fun f => let (r, w') := m (world f) in (r, set_world w' f).

(** [with open(fileName, 'r') as json_file: data = json.load(json_file)].
    Keys of a JSON object are text; a repeated key keeps its first position
    and its last value. *)
Definition json_load : M World FileDict :=
  fun w =>
    match file w with
    | Missing => (Raise OSError, w)
    | Malformed => (Raise JSONDecodeError, w)
    | Parsed boards =>
        (Return {| Boards :=
             option_map (fun ps => map (fun kv => (Some (fst kv), snd kv))
                                       (dict_of_pairs ps)) boards |}, w)
    end.

(** How [json.dump] writes a dictionary key: [None] becomes [null]. *)
Definition json_key (k : option string) : string :=
  match k with Some s => s | None => "null" end.

(** [with open(fileName, 'w') as json_file: json.dump(fileDict, json_file)];
    writing the file is taken to succeed. *)
Definition json_dump (fd : FileDict) : M World unit :=
  modify (set_file
    (Parsed (option_map (map (fun kv => (json_key (fst kv), snd kv))) (Boards fd)))).

(** [if apiKey == None: apiKey = str(input("API Key: "))] and the same for
    [boardID], in this order. *)
Definition prompt_missing : M Frame unit :=
  k <- gets l_apiKey ;;
  match k with
  | None => a <- liftW (input "API Key: ") ;; modify (set_apiKey (Some a))
  | Some _ => ret tt
  end ;;
  b <- gets l_boardID ;;
  match b with
  | None => a <- liftW (input "Board ID: ") ;; modify (set_boardID (Some a))
  | Some _ => ret tt
  end.

(** The body of [for board in fileDict['Boards']]. *)
Definition scan_board (name : string) (entry : BoardEntry) : M Frame unit :=
  if decide (e_name entry = name) then
    modify (set_boardID (p_board (properties entry))) ;;
    modify (set_apiKey (p_apiKey (properties entry)))
  else prompt_missing.

(** The dictionary stored under [fileDict['Boards'][boardID]]. *)
Definition new_entry (name : string) (boardID apiKey : option string)
    (cols : gmap string ColumnInfo) : BoardEntry :=
  {| e_name := name;
     e_id := boardID;
     properties := {| p_apiKey := apiKey;
                      p_apiUrl := apiUrl_v2;
                      p_headers := [("Authorization", apiKey)];
                      p_board := boardID |};
     columns := cols |}.

(** [fileDict['Boards'][boardID] = {..., 'columns': importBoardColumns(...)}]:
    the right-hand side is evaluated first. *)
Definition store_entry (name : string) : M Frame unit :=
  boardID <- gets l_boardID ;;
  apiKey <- gets l_apiKey ;;
  cols <- liftW (importBoardColumns apiKey boardID) ;;
  fd <- gets l_fileDict ;;
  match Boards fd with
  | Some boards =>
      modify (set_fileDict
        {| Boards := Some (dict_set boardID (new_entry name boardID apiKey cols) boards) |})
  | None => raise KeyError
  end.

Definition save : M Frame unit :=
  fd <- gets l_fileDict ;; liftW (json_dump fd).

(** The [try] block. *)
Definition boardGen_try (name : string) : M Frame unit :=
  data <- liftW json_load ;;
  modify (set_fileDict data) ;;
  boards <- (match Boards data with
             | Some boards => ret boards
             | None => raise KeyError
             end) ;;
  for_each (scan_board name) (map snd boards) ;;
  store_entry name ;;
  save.

(** The bare [except:] block. *)
Definition boardGen_except (name : string) : M Frame unit :=
  prompt_missing ;;
  fd <- gets l_fileDict ;;
  match Boards fd with
  | None => modify (set_fileDict {| Boards := Some [] |})
  | Some _ => ret tt
  end ;;
  store_entry name ;;
  save.

(** [boardGen] on its frame of locals. *)
Definition boardGen_frame (name : string) (boardID apiKey : option string)
    (w : World) : result unit * Frame :=
  try_catch (boardGen_try name) (fun _ => boardGen_except name)
    {| world := w; l_boardID := boardID; l_apiKey := apiKey;
       l_fileDict := {| Boards := None |} |}.

Definition boardGen (name : string) (boardID apiKey : option string)
  : M World FileDict :=
  fun w =>
    match boardGen_frame name boardID apiKey w with
    | (Return _, f) => (Return (l_fileDict f), world f)
    | (Raise e, f) => (Raise e, world f)
    end.

(** ** The Board class *)

Record Board : Type := {
  self_name : string;
  self_fileName : string;
  self_apiKey : option string;
  self_apiUrl : string;
  self_headers : list (string * option string);
  self_board : option string;
  self_columns : gmap string ColumnInfo
}.

(** [Board.__init__]: the configuration is indexed by the caller's [boardID]. *)
Definition Board_init (name : string) (boardID apiKey : option string)
  : M World Board :=
  key <- boardGen name boardID apiKey ;;
  match Boards key with
  | None => raise KeyError
  | Some boards =>
      match dict_get boardID boards with
      | None => raise KeyError
      | Some entry =>
          let keyProperties := properties entry in
          ret {| self_name := name;
                 self_fileName := "key.json";
                 self_apiKey := p_apiKey keyProperties;
                 self_apiUrl := p_apiUrl keyProperties;
                 self_headers := p_headers keyProperties;
                 self_board := p_board keyProperties;
                 self_columns := columns entry |}
      end
  end.

(** ** Python operators on decoded JSON *)

Definition is_str (key : string) (v : json) : bool :=
  match v with JStr s => bool_decide (s = key) | _ => false end.

(** [key in v] *)
Definition py_in {S} (key : string) (v : json) : M S bool :=
  match v with
  | JObj kvs => ret (dict_mem key kvs)
  | JArr l => ret (existsb (is_str key) l)
  | JStr s => ret (Py.substring_in key s)
  | JNull | JBool _ | JNum _ => raise TypeError
  end.


(** ** Board.create_item *)

Definition nl : string := String (ascii_of_nat 10) EmptyString.

Definition createItemMutation : string :=
  nl +:+ "mutation ($boardId: ID!, $itemName: String!, $columnValues: JSON!) {" +:+ nl +:+
  "    create_item (" +:+ nl +:+
  "        board_id: $boardId," +:+ nl +:+
  "        item_name: $itemName," +:+ nl +:+
  "        column_values: $columnValues" +:+ nl +:+
  "    ) {" +:+ nl +:+
  "        id" +:+ nl +:+
  "        name" +:+ nl +:+
  "    }" +:+ nl +:+
  "}" +:+ nl.

(** The guarded region of the date branch. For the cell values of the
    embedding none of its operations raises, so the [except] clause (warn
    and [continue]) is never entered; [None] means that no entry is written
    for the column. *)
Definition format_date (value : cell) : option payload :=
  if notna value && Py.truthy (Py.strip (str value)) then
    let date_str := Py.strip (str value) in
    let date_str :=
      if Py.contains " " date_str then hd EmptyString (Py.split " " date_str)
      else date_str in
    if Py.contains "/" date_str then
      match Py.split "/" date_str with
      | [month; day; year] =>
          Some (PDate (year +:+ "-" +:+ Py.zfill 2 month +:+ "-" +:+ Py.zfill 2 day))
      | _ => None
      end
    else Some (PDate date_str)
  else None.

(** The body of [for column_title, value in column_values.items()]. *)
Definition resolve_column (self : Board) (monday_column_values : list (string * payload))
    (item : string * cell) : list (string * payload) :=
  let (column_title, value) := item in
  match self_columns self !! column_title with
  | Some info =>
      let column_id := id info in
      if Py.startswith "date" column_id then
        match format_date value with
        | Some v => dict_set column_id v monday_column_values
        | None => monday_column_values
        end
      else dict_set column_id (PText (str value)) monday_column_values
  | None => monday_column_values
  end.

Definition resolve_columns (self : Board) (column_values : list (string * cell))
  : list (string * payload) :=
  fold_left (resolve_column self) column_values [].

(** [data = {'query': createItemMutation, 'variables': variables}] together
    with the endpoint and the headers it is posted with. *)
Definition create_item_request (self : Board) (item_name : string)
    (monday_column_values : list (string * payload)) : Request :=
  {| url := self_apiUrl self;
     headers := self_headers self;
     query := createItemMutation;
     variables := Some {| boardId := self_board self;
                          itemName := item_name;
                          columnValues := Dumps.dumps monday_column_values |} |}.

(** The [try] block of [create_item]. *)
Definition create_item_try (data : Request) : M World (option json) :=
  response <- post data ;;
  if negb (status_code response =? 200) then ret None
  else
    response_data <- lift_result (response_json response) ;;
    has_errors <- py_in "errors" response_data ;;
    if has_errors then ret None else ret (Some response_data).

(** The three [except] clauses; each one prints and returns [None]. *)
Definition create_item_except (e : exn) : M World (option json) :=
  match e with
  | RequestException => ret None
  | JSONDecodeError => ret None
  | _ => ret None
  end.

Definition create_item (self : Board) (item_name : string)
    (column_values : option (list (string * cell))) : M World (option json) :=
  let column_values :=
    match column_values with None => [] | Some d => d end in
  let monday_column_values := resolve_columns self column_values in
  let data := create_item_request self item_name monday_column_values in
  try_catch (create_item_try data) create_item_except.

(** ** Board.update_column_value *)

(** How an f-string renders an optional text. *)
Definition fstr (o : option string) : string :=
  match o with Some s => s | None => "None" end.

Definition update_mutation (self : Board) (item_id column_id value : string) : string :=
  "mutation { change_simple_column_value(item_id: " +:+ item_id +:+
  ", board_id: " +:+ fstr (self_board self) +:+
  ", column_id: " +:+ column_id +:+
  ", value: " +:+ Dumps.quote +:+ value +:+ Dumps.quote +:+ ") { id } }".

Definition update_request (self : Board) (item_id column_id value : string) : Request :=
  {| url := self_apiUrl self;
     headers := self_headers self;
     query := update_mutation self item_id column_id value;
     variables := None |}.

Definition update_column_value (self : Board) (item_id column_title value : string)
  : M World json :=
  match self_columns self !! column_title with
  | None => raise ValueError
  | Some info =>
      let column_id := id info in
      response <- post (update_request self item_id column_id value) ;;
      lift_result (response_json response)
  end.

(** ** Board.get_items *)

(** The query text of [get_items]; in the f-string a doubled brace is a
    literal brace. *)
Definition items_query (self : Board) (limit : Z) : string :=
  "{ boards(ids: [" +:+ fstr (self_board self) +:+
  "]) { items_page(limit: " +:+ pretty limit +:+
  ", query_params: { order_by: [ {column_id:" +:+ Dumps.quote +:+ "item_id__1" +:+
  Dumps.quote +:+
  ", direction: desc} ] } ) { cursor items { id name column_values { text value column { title } } } } } }".

Definition items_request (self : Board) (limit : Z) : Request :=
  {| url := self_apiUrl self;
     headers := self_headers self;
     query := items_query self limit;
     variables := None |}.

(** [get_items(limit)]; the default of [limit] is 500. *)
Definition get_items (self : Board) (limit : Z) : M World json :=
  response <- post (items_request self limit) ;;
  lift_result (response_json response).

(** ** Board.upload_excel_data *)

(** A row of the data frame: the cells in column order, under their titles. *)
Definition Row : Type := list (string * cell).

(** [name_column and name_column in row] *)
Definition name_column_given (name_column : option string) (row : Row) : bool :=
  match name_column with
  | Some c => Py.truthy c && dict_mem c row
  | None => false
  end.

(** Determine the item name; [row.iloc[0]] raises on a row without cells. *)
Definition row_item_name {S} (name_column : option string) (row : Row) : M S string :=
  if name_column_given name_column row then
    match name_column with
    | Some c =>
        match dict_get c row with
        | Some v => ret (str v)
        | None => raise KeyError
        end
    | None => raise KeyError
    end
  else
    match row with
    | (_, v) :: _ => ret (str v)
    | [] => raise IndexError
    end.

(** The body of [for column_name, value in row.items()]. *)
Definition add_cell (name_column : option string) (column_values : list (string * cell))
    (item : string * cell) : list (string * cell) :=
  let (column_name, value) := item in
  if negb (bool_decide (Some column_name = name_column)) && notna value
  then dict_set column_name value column_values
  else column_values.

Definition row_column_values (name_column : option string) (row : Row)
  : list (string * cell) :=
  fold_left (add_cell name_column) row [].





(** * Definitions used by the statements *)

(** ** Outcome of a creation request *)

(** Whether a decoded body passes the ['errors' in response_data] test:
    an object without that key, a list without that text, a text without
    that substring. On any other value the test itself raises. *)
Definition errors_free (v : json) : bool :=
  match v with
  | JObj kvs => negb (dict_mem "errors" kvs)
  | JArr l => negb (existsb (is_str "errors") l)
  | JStr s => negb (Py.substring_in "errors" s)
  | JNull | JBool _ | JNum _ => false
  end.

(** What [create_item] makes of the outcome of its request. *)
Definition accepted (answer : result Response) : option json :=
  match answer with
  | Return r =>
      if status_code r =? 200 then
        match body r with
        | Some v => if errors_free v then Some v else None
        | None => None
        end
      else None
  | Raise _ => None
  end.

(** The column values [create_item] works on when the argument is omitted. *)
Definition given_values (column_values : option (list (string * cell)))
  : list (string * cell) :=
  match column_values with None => [] | Some d => d end.

(** The request [create_item] issues. *)
Definition item_request (self : Board) (item_name : string)
    (column_values : option (list (string * cell))) : Request :=
  create_item_request self item_name
    (resolve_columns self (given_values column_values)).

(** The text the date branch works on: stripped, cut at the first space. *)
Definition date_part (value : cell) : string :=
  let date_str := Py.strip (str value) in
  if Py.contains " " date_str then hd EmptyString (Py.split " " date_str)
  else date_str.

(** ** The error condition as the specification words it *)

(** The specification counts as errors a status outside 200..299, a body that does
    not decode, and a decoded object with an [errors] member. *)
Definition is_2xx (status : Z) : bool := (200 <=? status) && (status <? 300).

(** A decoded object with an [errors] member. *)
Definition has_errors_field (v : json) : bool :=
  match v with JObj kvs => dict_mem "errors" kvs | _ => false end.

(** The error condition of the specification. *)
Definition spec_error (r : Response) : bool :=
  negb (is_2xx (status_code r))
  || match body r with
     | None => true
     | Some v => has_errors_field v
     end.

(** ** Indices of the column map *)

(** The item-name column of a board: the one whose id is [name]. *)
Definition is_name (c : ColumnRecord) : bool := bool_decide (col_id c = "name").

(** The index values the map holds for the other columns, in the order of
    the schema response. *)
Definition non_name_indices (boardColumns : list ColumnRecord) : list Z :=
  omap (fun c => index <$> column_dict boardColumns !! col_title c)
       (List.filter (fun c => negb (is_name c)) boardColumns).

(** ** Rows of a bulk import *)


(** The cells [row_column_values] keeps: those not under [name_column]
    and not missing. *)
Definition kept_cell (name_column : option string) (item : string * cell) : bool :=
  negb (bool_decide (Some (fst item) = name_column)) && notna (snd item).





(** ** A program logic for the monad, and the invariant of [boardGen] *)

(** [triple P m Q E]: from a state in [P], [m] either returns [a] in a
    state satisfying [Q a], or raises in a state satisfying [E]. *)
Definition triple {S A} (P : S -> Prop) (m : M S A)
    (Q : A -> S -> Prop) (E : S -> Prop) : Prop :=
  forall s, P s ->
    match m s with
    | (Return a, s') => Q a s'
    | (Raise _, s') => E s'
    end.

(** The remote refuses a schema query that carries no board id. *)
Definition rejects_null_board
    (reply : nat -> option string -> option string -> result (list ColumnRecord))
  : Prop :=
  forall n apiKey, exists e, reply n apiKey None = Raise e.

(** No board is filed under [None]. *)
Definition keys_given (fd : FileDict) : Prop :=
  match Boards fd with
  | Some boards => Forall (fun kv => fst kv <> None) boards
  | None => True
  end.

Definition has_boards (fd : FileDict) : Prop := Boards fd <> None.

(** The invariant of [boardGen]'s frame: the remote is still the one that
    answers with [reply], and no board is filed under [None]. *)
Definition frame_ok
    (reply : nat -> option string -> option string -> result (list ColumnRecord))
    (f : Frame) : Prop :=
  columns_reply (world f) = reply /\ keys_given (l_fileDict f).

(** The frame once an entry has been stored. *)
Definition frame_done
    (reply : nat -> option string -> option string -> result (list ColumnRecord))
    (f : Frame) : Prop :=
  frame_ok reply f /\ has_boards (l_fileDict f).

(** An entry that stores both a board id and an API key. *)
Definition entry_complete (e : BoardEntry) : Prop :=
  is_Some (p_board (properties e)) /\ is_Some (p_apiKey (properties e)).

(** ** Fixtures: a board with a text column and a date column, and some worlds *)

Definition demo_columns : gmap string ColumnInfo :=
  column_dict [ {| col_id := "name"; col_title := "Name" |};
                {| col_id := "text7"; col_title := "Status" |};
                {| col_id := "date4"; col_title := "Due" |} ].

Definition demo_board : Board :=
  {| self_name := "Demo";
     self_fileName := "key.json";
     self_apiKey := Some "secret";
     self_apiUrl := apiUrl_v2;
     self_headers := [("Authorization", Some "secret")];
     self_board := Some "42";
     self_columns := demo_columns |}.

(** A world whose remote answers every request with [answer] and every
    schema query with [cols]. *)
Definition constant_world (answer : result Response)
    (cols : result (list ColumnRecord)) (f : FileContent)
    (lines : list string) : World :=
  {| remote := fun _ _ => answer;
     sent := [];
     columns_reply := fun _ _ _ => cols;
     schema_queries := [];
     file := f;
     stdin := lines;
     prompts := [] |}.

Definition created_body (i : string) : json :=
  JObj [("data", JObj [("create_item", JObj [("id", JStr i); ("name", JStr "x")])])].

Definition ok_response (i : string) : Response :=
  {| status_code := 200; text := "ok"; body := Some (created_body i) |}.

Definition created_201 : Response :=
  {| status_code := 201; text := "created"; body := Some (created_body "7") |}.

Definition offline : World :=
  constant_world (Raise RequestException) (Raise RequestException) Missing [].



Definition alice_row : Row := [("Name", Text "Alice"); ("Status", Text "Done")].

Definition stored_entry (name board key : string) : BoardEntry :=
  new_entry name (Some board) (Some key) demo_columns.

(** A configuration file with two boards; the requested one comes second. *)
Definition two_boards : FileContent :=
  Parsed (Some [ ("1", stored_entry "Other" "1" "k1");
                 ("2", stored_entry "Target" "2" "k2") ]).

(** The same file, and a remote that answers a schema query for a board
    and refuses one without a board id. *)
Definition strict_world : World :=
  {| remote := fun _ _ => Raise RequestException;
     sent := [];
     columns_reply := fun _ _ board =>
       match board with
       | Some _ => Return [ {| col_id := "name"; col_title := "Name" |};
                            {| col_id := "text7"; col_title := "Status" |} ]
       | None => Raise KeyError
       end;
     schema_queries := [];
     file := two_boards;
     stdin := ["typed key"; "typed id"];
     prompts := [] |}.

Definition two_boards_world : World :=
  constant_world (Raise RequestException) (Return []) two_boards
    ["typed key"; "typed id"].

(** ** Further notions used below *)

(** Every character of [s] passes [p]. *)
Fixpoint all_chars (p : ascii -> bool) (s : string) : bool :=
  match s with
  | EmptyString => true
  | String c r => p c && all_chars p r
  end.

(** A piece of a date: free of whitespace and of slashes. *)
Definition date_piece (s : string) : bool :=
  all_chars (fun c => negb (Py.isspace c) && negb (Ascii.eqb c "/")) s.

(** The title is one of the board's columns. *)
Definition known_title (self : Board) (item : string * cell) : bool :=
  bool_decide (is_Some (self_columns self !! fst item)).


(** The boards [boardGen] starts from: those of the file when it can be
    read and has a ['Boards'] member, none otherwise. *)
Definition loaded_boards (f : FileContent) : list (option string * BoardEntry) :=
  match f with
  | Parsed (Some ps) => map (fun kv => (Some (fst kv), snd kv)) (dict_of_pairs ps)
  | _ => []
  end.

(** The members [json.dump] writes for a dictionary of boards. *)
Definition dumped_boards (boards : list (option string * BoardEntry))
  : list (string * BoardEntry) :=
  map (fun kv => (json_key (fst kv), snd kv)) boards.

(** The entries of a configuration file. *)
Definition file_entries (f : FileContent) : list BoardEntry :=
  match f with
  | Parsed (Some ps) => map snd ps
  | _ => []
  end.

(** *** Invariants of a run of [boardGen] started in the world [w0] *)

(** The file and the remote are those of [w0], and at most [k] schema
    queries were added. *)
Definition gen_world (w0 : World) (k : nat) (f : Frame) : Prop :=
  file (world f) = file w0 /\
  columns_reply (world f) = columns_reply w0 /\
  (length (schema_queries w0) <= length (schema_queries (world f))
   <= length (schema_queries w0) + k)%nat.

(** [fileDict] holds the boards of the file. *)
Definition gen_loaded (w0 : World) (k : nat) (f : Frame) : Prop :=
  gen_world w0 k f /\
  Boards (l_fileDict f) = Some (loaded_boards (file w0)).

(** [fileDict] holds the boards of the file, or nothing when there are none. *)
Definition gen_start (w0 : World) (k : nat) (f : Frame) : Prop :=
  gen_world w0 k f /\
  (Boards (l_fileDict f) = Some (loaded_boards (file w0)) \/
   (Boards (l_fileDict f) = None /\ loaded_boards (file w0) = [])).

(** [boards] is the file's boards with the entry of this call put under the
    resolved board id, its columns being the remote's reply to the last
    schema query made, which asked for the resolved key and id. *)
Definition stored_by (w0 : World) (name : string) (f : Frame)
    (boards : list (option string * BoardEntry)) : Prop :=
  exists n rs,
    columns_reply w0 n (l_apiKey f) (l_boardID f) = Return rs /\
    boards = dict_set (l_boardID f)
               (new_entry name (l_boardID f) (l_apiKey f) (column_dict rs))
               (loaded_boards (file w0)) /\
    S n = length (schema_queries (world f)) /\
    schema_queries (world f) !! n = Some (l_apiKey f, l_boardID f).

Definition queries_added (w0 : World) (k : nat) (f : Frame) : Prop :=
  (length (schema_queries w0) + 1 <= length (schema_queries (world f))
   <= length (schema_queries w0) + k)%nat.

(** After [store_entry]. *)
Definition gen_stored (w0 : World) (name : string) (k : nat) (f : Frame) : Prop :=
  file (world f) = file w0 /\ queries_added w0 k f /\
  exists boards, Boards (l_fileDict f) = Some boards /\
                 stored_by w0 name f boards.

(** After [save]. *)
Definition gen_saved (w0 : World) (name : string) (k : nat) (f : Frame) : Prop :=
  queries_added w0 k f /\
  exists boards, Boards (l_fileDict f) = Some boards /\
                 stored_by w0 name f boards /\
                 file (world f) = Parsed (Some (dumped_boards boards)).

(** An invariant that does not depend on the log of requests, on standard
    input, or on the values of [apiKey] and [boardID]. *)
Definition frame_respects (J : Frame -> Prop) : Prop :=
  (forall f w', file w' = file (world f) ->
                columns_reply w' = columns_reply (world f) ->
                schema_queries w' = schema_queries (world f) ->
                J f -> J (set_world w' f)) /\
  (forall f v, J f -> J (set_apiKey v f)) /\
  (forall f v, J f -> J (set_boardID v f)).

(** Both values are known, nothing was asked and nothing was read. *)
Definition quiet (w0 : World) (f : Frame) : Prop :=
  is_Some (l_apiKey f) /\ is_Some (l_boardID f) /\
  prompts (world f) = prompts w0 /\ stdin (world f) = stdin w0.

Definition quiet_before_save (w0 : World) (f : Frame) : Prop :=
  quiet w0 f /\ file (world f) = file w0.

(** The [Board] built for a new entry. *)
Definition new_board (name b k : string) (rs : list ColumnRecord) : Board :=
  {| self_name := name;
     self_fileName := "key.json";
     self_apiKey := Some k;
     self_apiUrl := apiUrl_v2;
     self_headers := [("Authorization", Some k)];
     self_board := Some b;
     self_columns := column_dict rs |}.

(** Both values are the ones the caller supplied. *)
Definition supplied (w0 : World) (b k : string) (f : Frame) : Prop :=
  l_boardID f = Some b /\ l_apiKey f = Some k.

Definition supplied_before_save (w0 : World) (b k : string) (f : Frame) : Prop :=
  supplied w0 b k f /\ file (world f) = file w0.



(** ** Reading back the text of a payload

    A reader for the text [json.dumps] writes for [monday_column_values]:
    an object whose members are strings or objects with the one member
    [date], in the separators [json.dumps] uses. It is what the remote does
    with the [columnValues] variable. *)

Module Loads.












End Loads.

(** ** Success as the specification words it, for a creation request *)





(** * Properties *)

(** ** Sanity checks of the string and serialisation primitives *)

Example strip_ex : Py.strip "  04/30/2025 08:39 " = "04/30/2025 08:39".
Proof. reflexivity. Qed.

Example split_ex : Py.split "/" "04/30/2025" = ["04"; "30"; "2025"].
Proof. reflexivity. Qed.

Example zfill_ex : Py.zfill 2 "4" = "04" /\ Py.zfill 2 "-" = "-0" /\ Py.zfill 2 "123" = "123".
Proof. repeat split; reflexivity. Qed.

Example dumps_ex :
  Dumps.dumps [("date4", PDate "2025-04-30"); ("text", PText "a")] =
  "{" +:+ Dumps.quote +:+ "date4" +:+ Dumps.quote +:+ ": {" +:+ Dumps.quote +:+ "date" +:+ Dumps.quote +:+ ": "
   +:+ Dumps.quote +:+ "2025-04-30" +:+ Dumps.quote +:+ "}, " +:+ Dumps.quote +:+ "text" +:+ Dumps.quote +:+ ": "
   +:+ Dumps.quote +:+ "a" +:+ Dumps.quote +:+ "}".
Proof. reflexivity. Qed.

(** ** Running [create_item] *)

Lemma create_item_try_run (data : Request) (w : World) :
  try_catch (create_item_try data) create_item_except w =
  (Return (accepted (remote w (length (sent w)) data)), log_request data w).
Proof.
  unfold try_catch, create_item_try, bind, post, accepted.
  destruct (remote w (length (sent w)) data) as [r|e]; cbn.
  - destruct (status_code r =? 200); cbn; [|reflexivity].
    unfold lift_result, response_json.
    destruct (body r) as [v|]; cbn; [|reflexivity].
    destruct v; cbn; try reflexivity.
    + destruct (Py.substring_in "errors" s); reflexivity.
    + destruct (existsb (is_str "errors") l); reflexivity.
    + destruct (dict_mem "errors" kvs); reflexivity.
  - destruct e; reflexivity.
Qed.

Lemma create_item_run (self : Board) (item_name : string)
    (column_values : option (list (string * cell))) (w : World) :
  create_item self item_name column_values w =
  (Return (accepted (remote w (length (sent w))
                       (item_request self item_name column_values))),
   log_request (item_request self item_name column_values) w).
Proof.
  unfold create_item, item_request, given_values.
  apply create_item_try_run.
Qed.

(** ** Date coercion (C1) *)

Lemma format_date_None (value : cell) :
  format_date value = None <->
  notna value = false \/ Py.strip (str value) = EmptyString \/
  (Py.contains "/" (date_part value) = true /\
   length (Py.split "/" (date_part value)) <> 3%nat).
Proof.
  unfold format_date. fold (date_part value).
  destruct (notna value) eqn:Hna; cbn [andb].
  2:{ split; [intros _; by left | done]. }
  destruct (Py.strip (str value)) eqn:Hs.
  { cbn. split; [intros _; right; by left | done]. }
  cbn [Py.truthy].
  destruct (Py.contains "/" (date_part value)) eqn:Hc.
  - destruct (Py.split "/" (date_part value)) as [|p1 [|p2 [|p3 [|p4 ps]]]] eqn:Hp;
      cbn [length]; split; intros H; try done;
      try (right; right; split; [done | lia]).
    destruct H as [H|[H|[_ H]]]; try done.
  - split; [done|]. intros [H|[H|[H _]]]; done.
Qed.

Lemma resolve_date_column (self : Board) (title : string) (info : ColumnInfo)
    (value : cell) :
  self_columns self !! title = Some info ->
  Py.startswith "date" (id info) = true ->
  resolve_columns self [(title, value)] =
  match format_date value with
  | Some v => [(id info, v)]
  | None => []
  end.
Proof.
  intros Hcol Hdate. unfold resolve_columns. cbn.
  rewrite Hcol, Hdate. by destruct (format_date value).
Qed.

(** C1, as the code has it. For a column whose id starts with [date]:
    the text "04/30/2025 08:39" becomes the structured value
    {"date": "2025-04-30"}; nothing is validated, so "13/45/2025" is sent as
    {"date": "2025-13-45"}; a value is left out only when it is missing or
    blank, or when its date part contains a slash without splitting into
    exactly three pieces; and in every case the creation request is issued
    with whatever was resolved. *)
Theorem create_item_date_coercion (self : Board) (title : string)
    (info : ColumnInfo)
    (Hcol : self_columns self !! title = Some info)
    (Hdate : Py.startswith "date" (id info) = true) :
  resolve_columns self [(title, Text "04/30/2025 08:39")]
    = [(id info, PDate "2025-04-30")] /\
  resolve_columns self [(title, Text "13/45/2025")]
    = [(id info, PDate "2025-13-45")] /\
  (forall value,
     resolve_columns self [(title, value)] = [] <->
     notna value = false \/ Py.strip (str value) = EmptyString \/
     (Py.contains "/" (date_part value) = true /\
      length (Py.split "/" (date_part value)) <> 3%nat)) /\
  (forall value item_name w,
     sent (snd (create_item self item_name (Some [(title, value)]) w)) =
     sent w ++ [create_item_request self item_name
                  (resolve_columns self [(title, value)])]).
Proof.
  split; [|split; [|split]].
  - by rewrite (resolve_date_column _ _ _ _ Hcol Hdate).
  - by rewrite (resolve_date_column _ _ _ _ Hcol Hdate).
  - intros value. rewrite (resolve_date_column _ _ _ _ Hcol Hdate).
    rewrite <- format_date_None. by destruct (format_date value).
  - intros value item_name w. by rewrite create_item_run.
Qed.

Lemma create_item_date_coercion_witness :
  resolve_columns demo_board [("Due", Text "04/30/2025 08:39")]
    = [("date4", PDate "2025-04-30")] /\
  resolve_columns demo_board [("Due", Text "13/45/2025")]
    = [("date4", PDate "2025-13-45")].
Proof.
  assert (Hcol : self_columns demo_board !! "Due"
                 = Some {| id := "date4"; index := 1 |}) by reflexivity.
  assert (Hdate : Py.startswith "date" (id {| id := "date4"; index := 1 |}) = true)
    by reflexivity.
  destruct (create_item_date_coercion demo_board "Due" _ Hcol Hdate)
    as (H1 & H2 & _).
  exact (conj H1 H2).
Defined.

(** The second example of C1 fails: the invalid date is not left out of
    the payload. *)
Lemma invalid_date_is_sent :
  ~ (resolve_columns demo_board [("Due", Text "13/45/2025")] = []).
Proof. vm_compute. discriminate. Qed.

(** ** The payload text can be read back *)

Lemma append_nil_l (b : string) : EmptyString +:+ b = b.
Proof. reflexivity. Qed.

Lemma append_cons (x : ascii) (a b : string) :
  String x a +:+ b = String x (a +:+ b).
Proof. reflexivity. Qed.

Lemma append_nil_r (a : string) : a +:+ EmptyString = a.
Proof.
  induction a as [|x a IH]; [done|]. by rewrite append_cons, IH.
Qed.

Lemma append_assoc (a b c : string) : (a +:+ b) +:+ c = a +:+ (b +:+ c).
Proof.
  induction a as [|x a IH]; [done|]. by rewrite !append_cons, IH.
Qed.







Lemma member_starts_with_quote (kv : string * payload) (t : string) :
  exists r, Dumps.dumps_member kv +:+ t = String Dumps.dquote r.
Proof. by eexists. Qed.





(** ** Outcome of [create_item] (C4, C8, C10) *)

(** A 201 answer with a clean body is none of the error cases of C4, yet
    [create_item] returns [None] for it. *)
Lemma create_item_rejects_201 :
  spec_error created_201 = false /\
  fst (create_item demo_board "x" None
         (constant_world (Return created_201) (Return []) Missing []))
  = Return None.
Proof. split; reflexivity. Qed.

(** C4, as the code has it. [create_item] returns [None] exactly when the
    request raises, or the status differs from 200 (so 201 or 204 count as
    errors), or the body does not decode, or the decoded body fails the
    ['errors' in response_data] test (an object with that key, a list or
    text containing it, or a scalar on which the test raises); in every
    other case it returns the decoded body. *)
Theorem create_item_error_cases (self : Board) (item_name : string)
    (column_values : option (list (string * cell))) (w : World) :
  let answer := remote w (length (sent w))
                  (item_request self item_name column_values) in
  (fst (create_item self item_name column_values w) = Return None <->
     (exists e, answer = Raise e) \/
     (exists r, answer = Return r /\
        (status_code r <> 200 \/ body r = None \/
         exists v, body r = Some v /\ errors_free v = false))) /\
  (forall v,
     fst (create_item self item_name column_values w) = Return (Some v) <->
     exists r, answer = Return r /\ status_code r = 200 /\
               body r = Some v /\ errors_free v = true).
Proof.
  intros answer. rewrite create_item_run. fold answer. cbn [fst].
  unfold accepted. destruct answer as [r|e].
  - destruct (Z.eqb_spec (status_code r) 200) as [Hs|Hs].
    + destruct (body r) as [v|] eqn:Hb.
      * destruct (errors_free v) eqn:He; split.
        -- split; [done|]. intros [[e H]|(r' & H & [H'|[H'|(v' & Hv & H')]])];
             try done; injection H as <-; try congruence.
        -- intros v'. split.
           ++ intros [= <-]. exists r. by rewrite Hb.
           ++ intros (r' & [= <-] & _ & Hv & _). congruence.
        -- split; [|done]. intros _. right. exists r. split; [done|].
           right; right. by exists v.
        -- intros v'. split; [done|].
           intros (r' & [= <-] & _ & Hv & He'). congruence.
      * split.
        -- split; [|done]. intros _. right. exists r. split; [done|].
           right. by left.
        -- intros v'. split; [done|]. intros (r' & [= <-] & _ & Hv & _).
           congruence.
    + split.
      * split; [|done]. intros _. right. exists r. split; [done|]. by left.
      * intros v'. split; [done|]. intros (r' & [= <-] & Hs' & _). done.
  - split.
    + split; [|done]. intros _. left. by exists e.
    + intros v'. split; [done|]. intros (r' & H & _). done.
Qed.



(** C10. [create_item] never raises: whatever the column values and
    whatever the request does (transport failure, undecodable body, any
    other exception), the call returns, and what it returns is [None] or
    the decoded body of the answer. *)
Theorem create_item_never_raises (self : Board) (item_name : string)
    (column_values : option (list (string * cell))) (w : World) :
  exists (out : option json) (w' : World),
    create_item self item_name column_values w = (Return out, w') /\
    (out = None \/
     exists r v,
       remote w (length (sent w)) (item_request self item_name column_values)
         = Return r /\
       body r = Some v /\ out = Some v).
Proof.
  rewrite create_item_run. eexists _, _. split; [reflexivity|].
  unfold accepted.
  destruct (remote w _ _) as [r|e]; [|by left].
  destruct (status_code r =? 200); [|by left].
  destruct (body r) as [v|] eqn:Hb; [|by left].
  destruct (errors_free v); [|by left].
  right. by exists r, v.
Qed.

(** ** The column map (C6) *)

Lemma add_columns_other (cols : list ColumnRecord) (m : gmap string ColumnInfo)
    (x : Z) (t : string) :
  t ∉ map col_title cols ->
  fst (fold_left add_column cols (m, x)) !! t = m !! t.
Proof.
  revert m x. induction cols as [|c cols IH]; intros m x Ht; [done|].
  cbn [fold_left]. unfold add_column at 2. cbn [fst snd].
  cbn [map] in Ht. apply not_elem_of_cons in Ht as [Hne Ht].
  rewrite IH by done. by rewrite lookup_insert_ne.
Qed.

Lemma add_columns_nth (cols : list ColumnRecord) (m : gmap string ColumnInfo)
    (x : Z) (i : nat) (c : ColumnRecord) :
  NoDup (map col_title cols) ->
  cols !! i = Some c ->
  fst (fold_left add_column cols (m, x)) !! col_title c
  = Some {| id := col_id c; index := x + Z.of_nat i |}.
Proof.
  revert m x i. induction cols as [|c0 cols IH]; intros m x i Hnd Hi; [done|].
  cbn [map] in Hnd. apply NoDup_cons in Hnd as [Hfresh Hnd].
  cbn [fold_left]. unfold add_column at 2. cbn [fst snd].
  destruct i as [|i].
  - injection Hi as ->. rewrite add_columns_other by done.
    rewrite lookup_insert_eq. do 2 f_equal. lia.
  - cbn in Hi. rewrite (IH _ _ i) by done. do 2 f_equal. lia.
Qed.

Lemma filter_keeps_all {A} (p : A -> bool) (l : list A) :
  Forall (fun a => p a = true) l -> List.filter p l = l.
Proof.
  induction 1 as [|a l Ha _ IH]; [done|]. cbn. by rewrite Ha, IH.
Qed.

Lemma omap_positions {A} (f : A -> option Z) (l : list A) (k : nat) :
  (forall i a, l !! i = Some a -> f a = Some (Z.of_nat (k + i))) ->
  omap f l = map Z.of_nat (seq k (length l)).
Proof.
  revert k. induction l as [|a l IH]; intros k H; [done|].
  cbn. rewrite (H 0%nat a eq_refl), Nat.add_0_r. f_equal.
  apply IH. intros i b Hb. rewrite (H (S i) b Hb). do 2 f_equal. lia.
Qed.

(** C6, as the code has it. The index is positional: with pairwise distinct
    titles the k-th record of the response (counted from 0) gets index
    k - 1. Hence, when the response starts with the name column, has no
    other name column and no repeated title, the name column has index -1
    and the other columns carry 0, 1, 2, ... in response order. *)
Theorem column_dict_indices (c0 : ColumnRecord) (rest : list ColumnRecord)
    (Hname : is_name c0 = true)
    (Hrest : Forall (fun c => is_name c = false) rest)
    (Hdistinct : NoDup (map col_title (c0 :: rest))) :
  column_dict (c0 :: rest) !! col_title c0
    = Some {| id := col_id c0; index := -1 |} /\
  (forall i c, rest !! i = Some c ->
     column_dict (c0 :: rest) !! col_title c
       = Some {| id := col_id c; index := Z.of_nat i |}) /\
  non_name_indices (c0 :: rest) = map Z.of_nat (seq 0 (length rest)).
Proof.
  assert (Hnth : forall i c, rest !! i = Some c ->
            column_dict (c0 :: rest) !! col_title c
              = Some {| id := col_id c; index := Z.of_nat i |}).
  { intros i c Hi. unfold column_dict.
    rewrite (add_columns_nth _ _ _ (S i) c Hdistinct Hi). do 2 f_equal. lia. }
  split; [|split; [exact Hnth|]].
  - unfold column_dict.
    by rewrite (add_columns_nth _ _ _ 0%nat c0 Hdistinct eq_refl).
  - unfold non_name_indices. cbn [List.filter]. rewrite Hname. cbn [negb].
    rewrite filter_keeps_all.
    2:{ eapply Forall_impl; [exact Hrest|]. cbn. by intros c ->. }
    apply omap_positions. intros i c Hi. by rewrite (Hnth i c Hi).
Qed.

Lemma column_dict_indices_witness :
  non_name_indices [ {| col_id := "name"; col_title := "Name" |};
                     {| col_id := "text7"; col_title := "Status" |};
                     {| col_id := "date4"; col_title := "Due" |} ]
  = [0; 1].
Proof.
  refine (proj2 (proj2 (column_dict_indices
            {| col_id := "name"; col_title := "Name" |}
            [ {| col_id := "text7"; col_title := "Status" |};
              {| col_id := "date4"; col_title := "Due" |} ] eq_refl _ _))).
  - repeat constructor.
  - refine (bool_decide_unpack (NoDup _) _). vm_compute. exact I.
Defined.

(** A response that does not start with the name column (C6 allows
    for the name column to have no entry): the first of the other columns
    gets index -1, not 0. *)
Lemma missing_name_column_shifts_indices :
  let cols := [ {| col_id := "text7"; col_title := "Status" |};
                {| col_id := "date4"; col_title := "Due" |} ] in
  non_name_indices cols = [-1; 0] /\
  non_name_indices cols <>
    map Z.of_nat (seq 0 (length (List.filter (fun c => negb (is_name c)) cols))).
Proof. split; [reflexivity | vm_compute; discriminate]. Qed.

(** A board with two columns titled alike: the later record overwrites the
    earlier one, and the indices of the other columns read 1, 1, 2. *)
Example repeated_title_indices :
  non_name_indices [ {| col_id := "name"; col_title := "Name" |};
                     {| col_id := "text7"; col_title := "Status" |};
                     {| col_id := "text8"; col_title := "Status" |};
                     {| col_id := "date4"; col_title := "Due" |} ]
  = [1; 1; 2].
Proof. reflexivity. Qed.

(** ** update_column_value (C7) *)

(** C7, as the code has it. An unknown column title raises [ValueError]
    before anything is sent, and that is the only failure that leaves the
    world untouched. With a known title the column id is resolved and
    exactly one update request is posted; the call then returns the decoded
    body, and an exception of the transport or of the decoding is not
    caught: it reaches the caller. *)
Theorem update_column_value_cases (self : Board)
    (item_id column_title value : string) (w : World) :
  (self_columns self !! column_title = None ->
   update_column_value self item_id column_title value w = (Raise ValueError, w)) /\
  (forall info, self_columns self !! column_title = Some info ->
     let req := update_request self item_id (id info) value in
     snd (update_column_value self item_id column_title value w)
       = log_request req w /\
     fst (update_column_value self item_id column_title value w)
       = match remote w (length (sent w)) req with
         | Return r => response_json r
         | Raise e => Raise e
         end) /\
  (sent (snd (update_column_value self item_id column_title value w)) = sent w
   <-> self_columns self !! column_title = None).
Proof.
  unfold update_column_value.
  destruct (self_columns self !! column_title) as [info|] eqn:Hcol.
  - split; [done|]. split.
    + intros info' [= <-]. unfold bind, post, lift_result.
      destruct (remote w _ _) as [r|e]; done.
    + unfold bind, post, lift_result.
      assert (Hlen : forall req, sent (log_request req w) <> sent w).
      { intros req H. apply (f_equal length) in H. cbn in H.
        rewrite length_app in H. cbn in H. lia. }
      destruct (remote w _ _) as [r|e]; cbn [snd]; split; try done;
        intros H; by apply Hlen in H.
  - split; [done|]. split; [done|]. done.
Qed.

Lemma update_column_value_cases_witness :
  update_column_value demo_board "1" "No such column" "Done" offline
    = (Raise ValueError, offline) /\
  sent (snd (update_column_value demo_board "1" "Status" "Done"
               (constant_world (Return (ok_response "1")) (Return []) Missing [])))
    = [update_request demo_board "1" "text7" "Done"].
Proof.
  split.
  - apply (update_column_value_cases demo_board "1" "No such column" "Done" offline).
    reflexivity.
  - destruct (update_column_value_cases demo_board "1" "Status" "Done"
                (constant_world (Return (ok_response "1")) (Return []) Missing []))
      as (_ & H & _).
    destruct (H {| id := "text7"; index := 0 |} eq_refl) as [Hw _].
    rewrite Hw. reflexivity.
Defined.

(** With the network down the call raises although the title is known. *)
Lemma update_raises_for_known_column :
  self_columns demo_board !! "Status" = Some {| id := "text7"; index := 0 |} /\
  fst (update_column_value demo_board "1" "Status" "Done" offline)
  = Raise RequestException.
Proof. split; reflexivity. Qed.

(** ** Bulk import (C3, C5) *)








Lemma add_cells_filter (name_column : option string) (row : Row)
    (acc : list (string * cell)) :
  fold_left (add_cell name_column) row acc =
  fold_left (fun d kv => dict_set (fst kv) (snd kv) d)
            (List.filter (kept_cell name_column) row) acc.
Proof.
  revert acc. induction row as [|[t v] row IH]; intros acc; [done|].
  cbn [fold_left List.filter]. unfold add_cell at 2, kept_cell at 1.
  cbn [fst snd].
  destruct (negb (bool_decide (Some t = name_column)) && notna v); cbn; apply IH.
Qed.

(** When [name_column] names a column of the row, the item name is that
    column's value and the column values are the non-missing cells of the
    other columns, keyed by title. *)
Lemma upload_row_with_name_column (c : string) (row : Row) :
  name_column_given (Some c) row = true ->
  (exists v, dict_get c row = Some v /\
             row_item_name (Some c) row tt = (Return (str v), tt)) /\
  row_column_values (Some c) row =
    dict_of_pairs (List.filter (kept_cell (Some c)) row) /\
  dict_get c (List.filter (kept_cell (Some c)) row) = None.
Proof.
  intros Hg. split; [|split].
  - unfold row_item_name. rewrite Hg.
    unfold name_column_given, dict_mem in Hg.
    destruct (dict_get c row) as [v|]; [by exists v|].
    by rewrite andb_false_r in Hg.
  - apply add_cells_filter.
  - clear Hg. induction row as [|[t v] row IH]; [done|].
    cbn [List.filter]. unfold kept_cell at 1. cbn [fst snd].
    destruct (bool_decide_reflect (Some t = Some c)) as [Heq|Hne]; cbn; [done|].
    destruct (notna v); cbn; [|done].
    destruct (decide (t = c)) as [->|_]; [done | exact IH].
Qed.

(** C3 at the failing input: without [name_column] the first column gives
    the item name and is nevertheless kept among the column values, so the
    request carries the name a second time, under the column id [name]. *)
Theorem first_column_not_excluded :
  row_item_name None alice_row tt = (Return "Alice", tt) /\
  row_column_values None alice_row
    = [("Name", Text "Alice"); ("Status", Text "Done")] /\
  resolve_columns demo_board (row_column_values None alice_row)
    = [("name", PText "Alice"); ("text7", PText "Done")] /\
  row_column_values (Some "Name") alice_row = [("Status", Text "Done")].
Proof. repeat split; reflexivity. Qed.

(** ** Configuration load (C2, C9) *)

(** C2 at the failing input: the board is in the file, but the entry before
    it does not match, and for that entry the loop prompts for both values;
    only then are they replaced by the stored ones. *)
Theorem boardGen_prompts_before_match :
  let out := boardGen_frame "Target" None None two_boards_world in
  fst out = Return tt /\
  prompts (world (snd out)) = ["API Key: "; "Board ID: "] /\
  stdin (world (snd out)) = [] /\
  l_boardID (snd out) = Some "2" /\
  l_apiKey (snd out) = Some "k2".
Proof. repeat split; reflexivity. Qed.

(** With the matching entry first nothing is asked. *)
Example boardGen_match_first :
  let out := boardGen_frame "Other" None None two_boards_world in
  fst out = Return tt /\ prompts (world (snd out)) = [] /\
  l_boardID (snd out) = Some "1" /\ l_apiKey (snd out) = Some "k1".
Proof. repeat split; reflexivity. Qed.

(** *** A small program logic for the monad *)

Lemma triple_ret {S A} (P : S -> Prop) (a : A) (Q : A -> S -> Prop) E :
  (forall s, P s -> Q a s) -> triple P (ret a) Q E.
Proof. intros H s Hs. by apply H. Qed.

Lemma triple_raise {S A} (P : S -> Prop) (e : exn) (Q : A -> S -> Prop)
    (E : S -> Prop) :
  (forall s, P s -> E s) -> triple P (raise e) Q E.
Proof. intros H s Hs. by apply H. Qed.

Lemma triple_bind {S A B} (P : S -> Prop) (m : M S A) (k : A -> M S B)
    (R : A -> S -> Prop) (Q : B -> S -> Prop) (E : S -> Prop) :
  triple P m R E -> (forall a, triple (R a) (k a) Q E) ->
  triple P (bind m k) Q E.
Proof.
  intros Hm Hk s Hs. unfold bind. specialize (Hm s Hs).
  destruct (m s) as [[a|e] s']; [by apply Hk | done].
Qed.

Lemma triple_try_catch {S A} (P : S -> Prop) (m : M S A) (h : exn -> M S A)
    (Q : A -> S -> Prop) (E' E : S -> Prop) :
  triple P m Q E' -> (forall e, triple E' (h e) Q E) ->
  triple P (try_catch m h) Q E.
Proof.
  intros Hm Hh s Hs. unfold try_catch. specialize (Hm s Hs).
  destruct (m s) as [[a|e] s']; [done | by apply Hh].
Qed.

Lemma triple_weaken {S A} (P P' : S -> Prop) (m : M S A)
    (Q Q' : A -> S -> Prop) (E E' : S -> Prop) :
  triple P' m Q' E' ->
  (forall s, P s -> P' s) -> (forall a s, Q' a s -> Q a s) ->
  (forall s, E' s -> E s) ->
  triple P m Q E.
Proof.
  intros Hm HP HQ HE s Hs. specialize (Hm s (HP s Hs)).
  destruct (m s) as [[a|e] s']; auto.
Qed.

Lemma triple_gets {S A} (P : S -> Prop) (f : S -> A) (E : S -> Prop) :
  triple P (gets f) (fun a s => P s /\ a = f s) E.
Proof. intros s Hs. by cbn. Qed.

Lemma triple_modify {S} (P Q : S -> Prop) (f : S -> S) (E : S -> Prop) :
  (forall s, P s -> Q (f s)) -> triple P (modify f) (fun _ => Q) E.
Proof. intros H s Hs. by apply H. Qed.

Lemma triple_for_each {S A} (I : S -> Prop) (f : A -> M S unit) (l : list A) :
  (forall x, triple I (f x) (fun _ => I) I) ->
  triple I (for_each f l) (fun _ => I) I.
Proof.
  intros Hf. induction l as [|x l IH]; cbn [for_each].
  - by apply triple_ret.
  - eapply triple_bind; [apply Hf | intros ?; apply IH].
Qed.

(** *** What [boardGen] keeps true *)

Section BoardGenInvariant.
Variable reply : nat -> option string -> option string -> result (list ColumnRecord).
Hypothesis Hnull : rejects_null_board reply.

Lemma liftW_frame_ok {A} (m : M World A) :
  (forall w, columns_reply (snd (m w)) = columns_reply w) ->
  triple (frame_ok reply) (liftW m) (fun _ => (frame_ok reply)) (frame_ok reply).
Proof.
  intros Hm f [Hr Hk]. unfold liftW. specialize (Hm (world f)).
  destruct (m (world f)) as [[a|e] w']; cbn [snd] in Hm;
    (split; [cbn; congruence | exact Hk]).
Qed.

Lemma input_reply (p : string) (w : World) :
  columns_reply (snd (input p w)) = columns_reply w.
Proof. unfold input. by destruct (stdin w). Qed.

Lemma prompt_missing_ok :
  triple (frame_ok reply) prompt_missing (fun _ => (frame_ok reply)) (frame_ok reply).
Proof.
  assert (Hask : forall p set,
            (forall line f, (frame_ok reply) f -> (frame_ok reply) (set (Some line) f)) ->
            triple (frame_ok reply)
              (bind (liftW (input p)) (fun line => modify (set (Some line))))
              (fun _ => (frame_ok reply)) (frame_ok reply)).
  { intros p set Hset. eapply triple_bind.
    - apply (liftW_frame_ok (input p)), input_reply.
    - intros line. apply triple_modify. apply Hset. }
  unfold prompt_missing.
  eapply triple_bind; [apply triple_gets|]. intros k.
  eapply triple_bind with (R := fun _ => (frame_ok reply)).
  { destruct k as [k'|].
    - apply triple_ret. by intros f [H _].
    - eapply triple_weaken; [apply Hask| | |]; try done.
      by intros f [H _]. }
  intros u. eapply triple_bind; [apply triple_gets|]. intros b.
  destruct b as [b'|].
  - apply triple_ret. by intros f [H _].
  - eapply triple_weaken; [apply Hask| | |]; try done.
    by intros f [H _].
Qed.

Lemma scan_board_ok (name : string) (entry : BoardEntry) :
  triple (frame_ok reply) (scan_board name entry) (fun _ => (frame_ok reply)) (frame_ok reply).
Proof.
  unfold scan_board. destruct (decide (e_name entry = name)).
  - eapply triple_bind with (R := fun _ => (frame_ok reply)); [|intros u];
      by apply triple_modify.
  - apply prompt_missing_ok.
Qed.

Lemma dict_set_keys {V} (k : option string) (v : V)
    (d : list (option string * V)) :
  k <> None -> Forall (fun kv => fst kv <> None) d ->
  Forall (fun kv => fst kv <> None) (dict_set k v d).
Proof.
  intros Hk. induction 1 as [|[k' v'] d Hk' Hd IH]; cbn.
  - by constructor.
  - destruct (decide (k' = k)); constructor; cbn; done.
Qed.

Lemma store_entry_ok (name : string) :
  triple (frame_ok reply) (store_entry name) (fun _ => (frame_done reply)) (frame_ok reply).
Proof.
  intros f [Hr Hk].
  unfold store_entry, bind, gets, liftW, importBoardColumns, modify, raise.
  rewrite Hr.
  destruct (l_boardID f) as [b|] eqn:Hb.
  - destruct (reply _ (l_apiKey f) (Some b)) as [cols|e]; cbn.
    + unfold keys_given in Hk.
      destruct (Boards (l_fileDict f)) as [boards|] eqn:HB; cbn.
      * split; [split; [done|]|done]. cbn. by apply dict_set_keys.
      * split; [done|]. unfold keys_given. cbn. by rewrite HB.
    + done.
  - destruct (Hnull (length (schema_queries (world f))) (l_apiKey f)) as [e ->].
    done.
Qed.

Lemma save_ok : triple (frame_done reply) save (fun _ => (frame_done reply)) (frame_ok reply).
Proof. by intros f [[Hr Hk] Hb]. Qed.

Lemma json_load_keys (w : World) :
  match json_load w with
  | (Return data, w') => keys_given data /\ w' = w
  | (Raise _, w') => w' = w
  end.
Proof.
  unfold json_load. destruct (file w) as [| |[ps|]]; try done.
  split; [|done]. unfold keys_given. cbn.
  apply Forall_map, Forall_forall. done.
Qed.

Lemma boardGen_try_ok (name : string) :
  triple (frame_ok reply) (boardGen_try name) (fun _ => (frame_done reply)) (frame_ok reply).
Proof.
  unfold boardGen_try.
  eapply triple_bind with
    (R := fun data f => (frame_ok reply) f /\ keys_given data).
  { intros f [Hr Hk]. unfold liftW.
    pose proof (json_load_keys (world f)) as H.
    destruct (json_load (world f)) as [[data|e] w'].
    - destruct H as [Hd ->]. by destruct f.
    - subst w'. by destruct f. }
  intros data. eapply triple_bind with (R := fun _ => (frame_ok reply)).
  { apply triple_modify. by intros f [[Hr _] Hd]. }
  intros u1. eapply triple_bind with (R := fun _ => (frame_ok reply)).
  { destruct (Boards data); [by apply triple_ret | by apply triple_raise]. }
  intros boards. eapply triple_bind.
  { apply triple_for_each. intros entry. apply scan_board_ok. }
  intros u2. eapply triple_bind; [apply store_entry_ok|].
  intros u3. apply save_ok.
Qed.

Lemma boardGen_except_ok (name : string) :
  triple (frame_ok reply) (boardGen_except name) (fun _ => (frame_done reply)) (frame_ok reply).
Proof.
  unfold boardGen_except.
  eapply triple_bind; [apply prompt_missing_ok|]. intros u0.
  eapply triple_bind; [apply triple_gets|]. intros fd.
  eapply triple_bind with (R := fun _ => (frame_ok reply)).
  { destruct (Boards fd).
    - apply triple_ret. by intros f [H _].
    - apply triple_modify. intros f [[Hr _] _]. split; [done|].
      unfold keys_given. cbn. constructor. }
  intros u4. eapply triple_bind; [apply store_entry_ok|].
  intros u5. apply save_ok.
Qed.

(** When [boardGen] returns, the dictionary it returns has boards, and
    none of them is filed under [None]. *)
Lemma boardGen_returns_keys (name : string) (boardID apiKey : option string)
    (w : World) (key : FileDict) (w' : World) :
  columns_reply w = reply ->
  boardGen name boardID apiKey w = (Return key, w') ->
  exists boards, Boards key = Some boards /\
                 Forall (fun kv => fst kv <> None) boards.
Proof.
  intros Hw Hrun. unfold boardGen, boardGen_frame in Hrun.
  pose proof (triple_try_catch (frame_ok reply) (boardGen_try name)
                (fun _ => boardGen_except name) (fun _ => (frame_done reply))
                (frame_ok reply) (frame_ok reply) (boardGen_try_ok name)
                (fun _ => boardGen_except_ok name)
                {| world := w; l_boardID := boardID; l_apiKey := apiKey;
                   l_fileDict := {| Boards := None |} |}) as H.
  destruct (try_catch _ _ _) as [[[]|e] f]; [|done].
  injection Hrun as <- <-.
  destruct H as [[_ Hk] Hb]; [by split|].
  unfold keys_given, has_boards in *.
  destruct (Boards (l_fileDict f)) as [boards|]; [by exists boards | done].
Qed.
End BoardGenInvariant.

Lemma dict_get_absent {K V} `{EqDecision K} (k : K) (d : list (K * V)) :
  Forall (fun kv => fst kv <> k) d -> dict_get k d = None.
Proof.
  induction 1 as [|[k' v'] d Hk' _ IH]; cbn; [done|].
  destruct (decide (k' = k)); done.
Qed.

(** C9, as the code has it. [Board(name)] without a board id never yields
    a board, also when the file holds a board of that name (the remote is
    assumed to refuse a schema query without a board id, which is what
    keeps [None] out of the keys). Whenever [boardGen] returns, the
    failure is the [KeyError] of indexing its result by [None]; when
    [boardGen] itself raises (the schema query fails, or standard input is
    exhausted, in the fallback path) that exception is the one that reaches
    the caller. *)
Theorem Board_init_without_boardID (name : string) (apiKey : option string)
    (w : World) (Hnull : rejects_null_board (columns_reply w)) :
  exists e w',
    Board_init name None apiKey w = (Raise e, w') /\
    (forall key w1, boardGen name None apiKey w = (Return key, w1) ->
                    e = KeyError) /\
    (forall e1 w1, boardGen name None apiKey w = (Raise e1, w1) -> e = e1).
Proof.
  unfold Board_init, bind.
  destruct (boardGen name None apiKey w) as [[key|e] w1] eqn:Hrun.
  - destruct (boardGen_returns_keys _ Hnull name None apiKey w key w1 eq_refl Hrun)
      as (boards & HB & Hkeys).
    rewrite HB, (dict_get_absent None boards Hkeys).
    exists KeyError, w1. split; [done|]. split; [done|]. by intros e1 w2 [=].
  - exists e, w1. split; [done|]. split; [by intros key w2 [=]|].
    by intros e1 w2 [= -> _].
Qed.

(** The file already holds a board called Target and the schema query for
    it succeeds; the lookup by [None] fails all the same. *)
Lemma Board_init_without_boardID_witness :
  rejects_null_board (columns_reply strict_world) /\
  fst (boardGen "Target" None None strict_world) <> Raise KeyError /\
  fst (Board_init "Target" None None strict_world) = Raise KeyError.
Proof.
  assert (Hnull : rejects_null_board (columns_reply strict_world)).
  { intros n k. exists KeyError. reflexivity. }
  split; [exact Hnull|]. split; [vm_compute; discriminate|].
  destruct (Board_init_without_boardID "Target" None strict_world Hnull)
    as (e & w' & Hrun & Hkey & _).
  rewrite Hrun. cbn [fst]. f_equal.
  destruct (boardGen "Target" None None strict_world) as [[key|e1] w1] eqn:Hgen.
  - exact (Hkey key w1 eq_refl).
  - vm_compute in Hgen. discriminate Hgen.
Defined.

(** Without a configuration file and with the network down, the schema
    query of the fallback path fails: initialisation ends with that
    exception, not with a [KeyError]. *)
Lemma Board_init_offline_error :
  let w := constant_world (Raise RequestException) (Raise RequestException)
             Missing ["key"; "42"] in
  rejects_null_board (columns_reply w) /\
  fst (Board_init "Demo" None None w) = Raise RequestException /\
  fst (Board_init "Demo" None None w) <> Raise KeyError.
Proof.
  split; [|split].
  - intros n k. by exists RequestException.
  - reflexivity.
  - discriminate.
Qed.

(** *** When the loop of [boardGen] stays silent *)

(** Once both values are known the loop over complete entries asks nothing:
    the world is left as it was. *)
Lemma scan_boards_silent (name : string) (entries : list BoardEntry) (f : Frame) :
  Forall entry_complete entries ->
  is_Some (l_apiKey f) -> is_Some (l_boardID f) ->
  exists f', for_each (scan_board name) entries f = (Return tt, f') /\
             world f' = world f /\
             is_Some (l_apiKey f') /\ is_Some (l_boardID f').
Proof.
  intros Hall. revert f.
  induction Hall as [|e entries [Hb Hk] _ IH]; intros f Hkey Hid.
  - by exists f.
  - cbn [for_each]. unfold bind at 1, scan_board.
    destruct (decide (e_name e = name)) as [_|_].
    + apply (IH (set_apiKey (p_apiKey (properties e))
                   (set_boardID (p_board (properties e)) f))); done.
    + unfold prompt_missing, bind, gets.
      destruct Hkey as [k Hkey], Hid as [b Hid].
      rewrite Hkey. cbn. rewrite Hid. cbn. apply IH; by eexists.
Qed.

(** In particular nothing is asked when the first entry of the file is the
    requested board, whatever the arguments were. *)
Lemma scan_boards_match_first (name : string) (e : BoardEntry)
    (rest : list BoardEntry) (f : Frame) :
  e_name e = name -> Forall entry_complete (e :: rest) ->
  exists f', for_each (scan_board name) (e :: rest) f = (Return tt, f') /\
             world f' = world f.
Proof.
  intros Hname Hall. apply Forall_cons in Hall as [[Hb Hk] Hall].
  cbn [for_each]. unfold bind at 1, scan_board.
  destruct (decide (e_name e = name)) as [_|Hne]; [|done].
  destruct (scan_boards_silent name rest
              (set_apiKey (p_apiKey (properties e))
                 (set_boardID (p_board (properties e)) f)) Hall Hk Hb)
    as (f' & Hrun & Hw & _).
  exists f'. by split.
Qed.


(** * Further properties of the code *)

(** ** Dictionaries *)

Lemma dict_get_set_eq {K V} `{EqDecision K} (k : K) (v : V) (d : list (K * V)) :
  dict_get k (dict_set k v d) = Some v.
Proof.
  induction d as [|[k' v'] d IH]; cbn.
  - by destruct (decide (k = k)).
  - destruct (decide (k' = k)) as [->|Hne]; cbn.
    + by destruct (decide (k = k)).
    + by destruct (decide (k' = k)).
Qed.

Lemma dict_get_set_ne {K V} `{EqDecision K} (k k0 : K) (v : V) (d : list (K * V)) :
  k0 <> k -> dict_get k0 (dict_set k v d) = dict_get k0 d.
Proof.
  intros Hne. induction d as [|[k' v'] d IH]; cbn.
  - by destruct (decide (k = k0)) as [->|].
  - destruct (decide (k' = k)) as [->|Hk]; cbn.
    + destruct (decide (k = k0)) as [->|]; done.
    + destruct (decide (k' = k0)); done.
Qed.

Lemma dict_set_keys_fresh {K V} `{EqDecision K} (k : K) (v : V) (d : list (K * V)) :
  k ∉ map fst d -> dict_set k v d = d ++ [(k, v)].
Proof.
  induction d as [|[k' v'] d IH]; cbn; [done|]. intros Hk.
  apply not_elem_of_cons in Hk as [Hne Hk].
  destruct (decide (k' = k)) as [->|_]; [done|]. by rewrite IH.
Qed.

Lemma dict_set_map_fst {K V} `{EqDecision K} (k : K) (v : V) (d : list (K * V)) :
  map fst (dict_set k v d) =
  if bool_decide (k ∈ map fst d) then map fst d else map fst d ++ [k].
Proof.
  induction d as [|[k' v'] d IH]; cbn; [done|].
  destruct (decide (k' = k)) as [->|Hne]; cbn.
  - rewrite bool_decide_eq_true_2; [done | by left].
  - rewrite IH. destruct (bool_decide_reflect (k ∈ map fst d)) as [Hin|Hout].
    + rewrite bool_decide_eq_true_2; [done | by right].
    + rewrite bool_decide_eq_false_2; [done|].
      intros Hin. apply elem_of_cons in Hin as [->|Hin]; done.
Qed.

Lemma dict_set_NoDup {K V} `{EqDecision K} (k : K) (v : V) (d : list (K * V)) :
  NoDup (map fst d) -> NoDup (map fst (dict_set k v d)).
Proof.
  intros Hd. rewrite dict_set_map_fst.
  destruct (bool_decide_reflect (k ∈ map fst d)) as [Hin|Hout]; [done|].
  apply NoDup_app. split; [done|]. split.
  - intros x Hx Hk. apply list_elem_of_singleton in Hk as ->. done.
  - apply NoDup_singleton.
Qed.

Lemma dict_set_elem {K V} `{EqDecision K} (k : K) (v : V) (d : list (K * V))
    (kv : K * V) :
  kv ∈ dict_set k v d -> kv = (k, v) \/ kv ∈ d.
Proof.
  induction d as [|[k' v'] d IH]; cbn.
  - intros H. apply list_elem_of_singleton in H. by left.
  - destruct (decide (k' = k)) as [->|Hne]; intros H;
      apply elem_of_cons in H as [->|H].
    + by left.
    + right. by right.
    + right. by left.
    + destruct (IH H) as [->|Hin]; [by left | right; by right].
Qed.

(** ** The column map for any schema response *)

Lemma add_columns_snd (cols : list ColumnRecord) (m : gmap string ColumnInfo)
    (x : Z) :
  snd (fold_left add_column cols (m, x)) = x + Z.of_nat (length cols).
Proof.
  revert m x. induction cols as [|c cols IH]; intros m x; cbn [fold_left length].
  - cbn. lia.
  - unfold add_column at 2. cbn [fst snd]. rewrite IH. lia.
Qed.

Lemma column_dict_snoc (cols : list ColumnRecord) (c : ColumnRecord) :
  column_dict (cols ++ [c]) =
  <[col_title c := {| id := col_id c; index := Z.of_nat (length cols) - 1 |}]>
    (column_dict cols).
Proof.
  unfold column_dict. rewrite fold_left_app. cbn [fold_left].
  unfold add_column at 1. cbn [fst].
  pose proof (add_columns_snd cols ∅ (-1)) as Hs.
  destruct (fold_left add_column cols (∅, -1)) as [m x]. cbn [fst snd] in *.
  subst x. do 2 f_equal. lia.
Qed.

(** X1. For any schema response, also one with repeated titles: a title has
    an entry in the column map exactly when some record carries it, and the
    entry is that of the last such record, with its position in the response
    less one as index. *)
Theorem column_dict_last_wins (cols : list ColumnRecord) (t : string)
    (info : ColumnInfo) :
  column_dict cols !! t = Some info <->
  exists (i : nat) (c : ColumnRecord),
    cols !! i = Some c /\ col_title c = t /\
    info = {| id := col_id c; index := Z.of_nat i - 1 |} /\
    forall (j : nat) (c' : ColumnRecord),
      cols !! j = Some c' -> col_title c' = t -> (j <= i)%nat.
Proof.
  revert info. induction cols as [|c0 cols IH] using rev_ind; intros info.
  - split; [done|]. by intros (i & c & Hi & _).
  - rewrite column_dict_snoc.
    destruct (decide (col_title c0 = t)) as [Ht|Ht].
    + rewrite Ht, lookup_insert_eq. split.
      * intros [= <-]. exists (length cols), c0. split; [|split; [done|split; [done|]]].
        -- by rewrite lookup_app_r, Nat.sub_diag.
        -- intros j c' Hj _. apply lookup_lt_Some in Hj.
           rewrite length_app in Hj. cbn in Hj. lia.
      * intros (i & c & Hi & _ & -> & Hmax).
        assert (Hlast : (cols ++ [c0]) !! length cols = Some c0)
          by (by rewrite lookup_app_r, Nat.sub_diag).
        pose proof (Hmax _ _ Hlast Ht) as Hle.
        pose proof (lookup_lt_Some _ _ _ Hi) as Hlt.
        rewrite length_app in Hlt. cbn in Hlt.
        assert (i = length cols) as -> by lia.
        rewrite Hlast in Hi. by injection Hi as <-.
    + rewrite lookup_insert_ne by done. rewrite IH. split.
      * intros (i & c & Hi & Hc & -> & Hmax). exists i, c.
        split; [by apply lookup_app_l_Some|]. split; [done|]. split; [done|].
        intros j c' Hj Hc'. apply lookup_app_Some in Hj as [Hj|[_ Hj]].
        -- by apply (Hmax j c').
        -- apply list_lookup_singleton_Some in Hj as [_ <-]. done.
      * intros (i & c & Hi & Hc & -> & Hmax).
        apply lookup_app_Some in Hi as [Hi|[_ Hi]].
        -- exists i, c. split; [done|]. split; [done|]. split; [done|].
           intros j c' Hj Hc'. apply (Hmax j c'); [|done].
           by apply lookup_app_l_Some.
        -- apply list_lookup_singleton_Some in Hi as [_ <-]. done.
Qed.

Lemma column_dict_lookup_position (cols : list ColumnRecord) (t : string)
    (info : ColumnInfo) :
  column_dict cols !! t = Some info ->
  exists (i : nat) (c : ColumnRecord),
    cols !! i = Some c /\ col_title c = t /\
    info = {| id := col_id c; index := Z.of_nat i - 1 |}.
Proof.
  induction cols as [|c0 cols IH] using rev_ind; [done|].
  rewrite column_dict_snoc.
  destruct (decide (col_title c0 = t)) as [Ht|Ht].
  - rewrite Ht, lookup_insert_eq. intros [= <-].
    exists (length cols), c0. split; [|done].
    by rewrite lookup_app_r, Nat.sub_diag.
  - rewrite lookup_insert_ne by done. intros H.
    destruct (IH H) as (i & c & Hi & Hc & ->).
    exists i, c. split; [by apply lookup_app_l_Some | done].
Qed.

(** X2. In the column map of any schema response two different titles never
    share an index, and every index lies between -1 and the number of
    records less two. *)
Theorem column_dict_index_injective (cols : list ColumnRecord)
    (t1 t2 : string) (i1 i2 : ColumnInfo) :
  column_dict cols !! t1 = Some i1 ->
  column_dict cols !! t2 = Some i2 ->
  (-1 <= index i1 < Z.of_nat (length cols) - 1) /\
  (index i1 = index i2 -> t1 = t2).
Proof.
  intros H1 H2.
  apply column_dict_lookup_position in H1 as (n1 & c1 & Hn1 & Ht1 & ->).
  apply column_dict_lookup_position in H2 as (n2 & c2 & Hn2 & Ht2 & ->).
  cbn [index]. split.
  - apply lookup_lt_Some in Hn1. lia.
  - intros Heq. assert (n1 = n2) as -> by lia. congruence.
Qed.

Lemma column_dict_index_injective_witness :
  column_dict [ {| col_id := "name"; col_title := "Name" |};
                {| col_id := "text7"; col_title := "Status" |};
                {| col_id := "text8"; col_title := "Status" |} ] !! "Status"
    = Some {| id := "text8"; index := 1 |} /\
  (-1 <= 1 < 3 - 1).
Proof.
  split; [reflexivity|].
  exact (proj1 (column_dict_index_injective
           [ {| col_id := "name"; col_title := "Name" |};
             {| col_id := "text7"; col_title := "Status" |};
             {| col_id := "text8"; col_title := "Status" |} ]
           "Status" "Name" {| id := "text8"; index := 1 |}
           {| id := "name"; index := -1 |} eq_refl eq_refl)).
Defined.

(** ** What [create_item] puts in the payload *)

Lemma resolve_fold_entries (self : Board) (cv : list (string * cell))
    (acc : list (string * payload)) (P : string * payload -> Prop) :
  NoDup (map fst acc) ->
  (forall kp, kp ∈ acc -> P kp) ->
  (forall title v info,
     (title, v) ∈ cv -> self_columns self !! title = Some info ->
     (forall p, (if Py.startswith "date" (id info)
                 then format_date v = Some p else p = PText (str v)) ->
                P (id info, p))) ->
  NoDup (map fst (fold_left (resolve_column self) cv acc)) /\
  forall kp, kp ∈ fold_left (resolve_column self) cv acc -> P kp.
Proof.
  revert acc. induction cv as [|[title v] cv IH]; intros acc Hnd Hacc Hstep.
  - done.
  - cbn [fold_left]. apply IH.
    + unfold resolve_column.
      destruct (self_columns self !! title) as [info|]; [|done].
      destruct (Py.startswith "date" (id info)); [|by apply dict_set_NoDup].
      destruct (format_date v); [by apply dict_set_NoDup | done].
    + intros kp Hkp. unfold resolve_column in Hkp.
      destruct (self_columns self !! title) as [info|] eqn:Hcol; [|by apply Hacc].
      assert (Hhere : (title, v) ∈ (title, v) :: cv) by left.
      pose proof (Hstep title v info Hhere Hcol) as Hp.
      destruct (Py.startswith "date" (id info)).
      * destruct (format_date v) as [p|] eqn:Hf; [|by apply Hacc].
        apply dict_set_elem in Hkp as [->|Hkp]; [by apply Hp | by apply Hacc].
      * apply dict_set_elem in Hkp as [->|Hkp]; [by apply Hp | by apply Hacc].
    + intros title' v' info Hin. apply Hstep. by right.
Qed.

(** X3. Whatever column values are passed to [create_item], the payload it
    serialises has no repeated key, and each of its members stems from a
    passed title that the board knows: the key is that column's id, the
    value is the stringified cell, or for a date column the coerced date. *)
Theorem resolve_columns_entries (self : Board) (cv : list (string * cell)) :
  NoDup (map fst (resolve_columns self cv)) /\
  forall k p, (k, p) ∈ resolve_columns self cv ->
    exists title v info,
      (title, v) ∈ cv /\ self_columns self !! title = Some info /\
      id info = k /\
      if Py.startswith "date" k then format_date v = Some p
      else p = PText (str v).
Proof.
  destruct (resolve_fold_entries self cv []
    (fun kp => exists title v info,
       (title, v) ∈ cv /\ self_columns self !! title = Some info /\
       id info = fst kp /\
       if Py.startswith "date" (fst kp) then format_date v = Some (snd kp)
       else snd kp = PText (str v))) as [Hnd Hall].
  - constructor.
  - intros kp Hkp. by apply elem_of_nil in Hkp.
  - intros title v info Hin Hcol p Hp. by exists title, v, info.
  - split; [exact Hnd|]. intros k p Hkp. exact (Hall (k, p) Hkp).
Qed.

Lemma resolve_fold_filter (self : Board) (cv : list (string * cell))
    (acc : list (string * payload)) :
  fold_left (resolve_column self) cv acc =
  fold_left (resolve_column self) (List.filter (known_title self) cv) acc.
Proof.
  revert acc. induction cv as [|[title v] cv IH]; intros acc; [done|].
  cbn [fold_left List.filter]. unfold known_title at 1. cbn [fst].
  destruct (self_columns self !! title) as [info|] eqn:Hcol.
  - rewrite bool_decide_eq_true_2 by eauto. cbn [fold_left]. apply IH.
  - rewrite bool_decide_eq_false_2 by (by intros [? ?]).
    unfold resolve_column at 2. rewrite Hcol. apply IH.
Qed.

(** X4. Titles that are not columns of the board are skipped silently:
    [create_item] posts the very request it would post had they not been
    passed at all. *)
Theorem create_item_skips_unknown_titles (self : Board) (item_name : string)
    (cv : list (string * cell)) (w : World) :
  resolve_columns self cv = resolve_columns self (List.filter (known_title self) cv) /\
  create_item self item_name (Some cv) w =
  create_item self item_name (Some (List.filter (known_title self) cv)) w.
Proof.
  assert (H : resolve_columns self cv =
              resolve_columns self (List.filter (known_title self) cv))
    by apply resolve_fold_filter.
  split; [exact H|].
  rewrite !create_item_run. unfold item_request, given_values. by rewrite <- H.
Qed.

(** ** The string primitives, as far as the date branch needs them *)

Lemma contains_app (c : ascii) (a b : string) :
  Py.contains c (a +:+ b) = Py.contains c a || Py.contains c b.
Proof.
  induction a as [|x a IH]; [done|]. rewrite append_cons. cbn.
  destruct (Ascii.eqb x c); [done | exact IH].
Qed.

Lemma split_not_nil (sep : ascii) (s : string) : Py.split sep s <> [].
Proof.
  induction s as [|c s IH]; cbn; [done|].
  destruct (Ascii.eqb c sep); [done|]. by destruct (Py.split sep s).
Qed.

Lemma split_no_sep (sep : ascii) (s : string) :
  Py.contains sep s = false -> Py.split sep s = [s].
Proof.
  induction s as [|c s IH]; cbn; [done|].
  destruct (Ascii.eqb c sep); [done|]. intros H. by rewrite (IH H).
Qed.

Lemma split_app_sep (sep : ascii) (a b : string) :
  Py.contains sep a = false ->
  Py.split sep (a +:+ String sep b) = a :: Py.split sep b.
Proof.
  induction a as [|c a IH].
  - intros _. rewrite append_nil_l. cbn. by rewrite Ascii.eqb_refl.
  - rewrite append_cons. cbn. destruct (Ascii.eqb c sep); [done|].
    intros H. by rewrite (IH H).
Qed.

(** The pieces of a split are free of the separator, and of every character
    the text was free of. *)
Lemma split_pieces (sep c : ascii) (s : string) :
  c = sep \/ Py.contains c s = false ->
  Forall (fun p => Py.contains c p = false) (Py.split sep s).
Proof.
  induction s as [|x s IH]; cbn; intros Hc.
  - by constructor.
  - destruct (Ascii.eqb_spec x sep) as [->|Hx].
    + constructor; [done|]. apply IH.
      destruct Hc as [->|Hc]; [by left|]. right.
      by destruct (Ascii.eqb sep c).
    + assert (Hxc : Ascii.eqb x c = false).
      { destruct Hc as [->|Hc]; [by apply Ascii.eqb_neq|].
        by destruct (Ascii.eqb x c). }
      assert (IH' : Forall (fun p => Py.contains c p = false) (Py.split sep s)).
      { apply IH. destruct Hc as [->|Hc]; [by left|]. right.
        by rewrite Hxc in Hc. }
      destruct (Py.split sep s) as [|p ps].
      * constructor; [|done]. cbn. by rewrite Hxc.
      * apply Forall_cons in IH' as [Hp Hps]. constructor; [|done].
        cbn. by rewrite Hxc.
Qed.

Lemma zeros_contains (c : ascii) (n : nat) :
  c <> "0"%char -> Py.contains c (Py.zeros n) = false.
Proof.
  intros Hc. induction n as [|n IH]; cbn [Py.zeros Py.contains]; [done|].
  destruct (Ascii.eqb_spec "0" c) as [<-|_]; done.
Qed.

Lemma zfill_contains (c : ascii) (n : nat) (s : string) :
  c <> "0"%char -> Py.contains c (Py.zfill n s) = Py.contains c s.
Proof.
  intros Hc. unfold Py.zfill. destruct (n <=? String.length s)%nat; [done|].
  destruct s as [|x s].
  - by apply zeros_contains.
  - destruct (Ascii.eqb x "+" || Ascii.eqb x "-").
    + cbn. by rewrite contains_app, zeros_contains.
    + by rewrite contains_app, zeros_contains.
Qed.

Lemma all_chars_app (p : ascii -> bool) (a b : string) :
  all_chars p (a +:+ b) = all_chars p a && all_chars p b.
Proof.
  induction a as [|x a IH]; [done|]. rewrite append_cons. cbn.
  by rewrite IH, andb_assoc.
Qed.

Lemma all_chars_impl (p q : ascii -> bool) (s : string) :
  (forall c, p c = true -> q c = true) ->
  all_chars p s = true -> all_chars q s = true.
Proof.
  intros Hpq. induction s as [|x s IH]; cbn; [done|].
  intros [Hx Hs]%andb_prop. by rewrite (Hpq x Hx), (IH Hs).
Qed.

Lemma all_chars_contains (p : ascii -> bool) (c : ascii) (s : string) :
  p c = false -> all_chars p s = true -> Py.contains c s = false.
Proof.
  intros Hc. induction s as [|x s IH]; cbn; [done|].
  intros [Hx Hs]%andb_prop.
  destruct (Ascii.eqb_spec x c) as [->|_]; [congruence | by apply IH].
Qed.

Lemma lstrip_app (a b : string) :
  a <> EmptyString -> all_chars (fun c => negb (Py.isspace c)) a = true ->
  Py.lstrip (a +:+ b) = a +:+ b.
Proof.
  destruct a as [|x a]; [done|]. intros _. rewrite append_cons. cbn.
  intros [Hx _]%andb_prop. by destruct (Py.isspace x).
Qed.

Lemma rstrip_app (a b : string) :
  all_chars (fun c => negb (Py.isspace c)) a = true ->
  Py.rstrip (a +:+ b) = a +:+ Py.rstrip b.
Proof.
  induction a as [|x a IH]; [done|]. rewrite !append_cons. cbn.
  intros [Hx Ha]%andb_prop. rewrite (IH Ha).
  destruct (a +:+ Py.rstrip b) eqn:Hr; [|done].
  by destruct (Py.isspace x).
Qed.

Lemma rstrip_after_space (rest : string) :
  rest = EmptyString \/ (exists t, rest = String " " t) ->
  Py.rstrip rest = EmptyString \/ exists t, Py.rstrip rest = String " " t.
Proof.
  intros [->|[t ->]]; [by left|]. cbn.
  destruct (Py.rstrip t); [by left | right; by eexists].
Qed.

Lemma date_part_no_space (value : cell) :
  Py.contains " " (date_part value) = false.
Proof.
  unfold date_part.
  destruct (Py.contains " " (Py.strip (str value))) eqn:Hc; [|done].
  pose proof (split_pieces " " " " (Py.strip (str value)) (or_introl eq_refl)) as H.
  destruct (Py.split " " (Py.strip (str value))); [done|].
  by apply Forall_cons in H as [H _].
Qed.

(** X5. Whatever the cell, the date branch yields a structured date value
    (never a plain text), and the date text it sends contains neither a
    slash nor a space. *)
Theorem format_date_shape (value : cell) (p : payload) :
  format_date value = Some p ->
  exists d, p = PDate d /\
            Py.contains "/" d = false /\ Py.contains " " d = false.
Proof.
  unfold format_date. fold (date_part value).
  destruct (notna value && Py.truthy (Py.strip (str value))); [|done].
  pose proof (date_part_no_space value) as Hsp.
  destruct (Py.contains "/" (date_part value)) eqn:Hsl.
  - pose proof (split_pieces "/" "/" (date_part value) (or_introl eq_refl)) as H1.
    pose proof (split_pieces "/" " " (date_part value) (or_intror Hsp)) as H2.
    destruct (Py.split "/" (date_part value)) as [|m [|d [|y [|x l]]]]; try done.
    intros [= <-]. eexists. split; [done|].
    apply Forall_cons in H1 as [Hm1 [Hd1 [Hy1 _]%Forall_cons]%Forall_cons].
    apply Forall_cons in H2 as [Hm2 [Hd2 [Hy2 _]%Forall_cons]%Forall_cons].
    rewrite !contains_app, !zfill_contains by done.
    rewrite Hm1, Hd1, Hy1, Hm2, Hd2, Hy2. done.
  - intros [= <-]. by eexists.
Qed.

Lemma format_date_shape_witness :
  exists d, PDate "2025-4x-03" = PDate d /\
            Py.contains "/" d = false /\ Py.contains " " d = false.
Proof.
  apply (format_date_shape (Text "  4x/3/2025 at noon ")). reflexivity.
Defined.

(** X6. Month/day/year text in general: for any three pieces free of
    whitespace and slashes, joined by slashes and followed by nothing or by
    a space and anything, the date branch yields year-month-day with month
    and day padded to two characters. *)
Theorem format_date_mdy (m d y rest : string) :
  date_piece m = true -> date_piece d = true -> date_piece y = true ->
  rest = EmptyString \/ (exists t, rest = String " " t) ->
  format_date (Text (m +:+ "/" +:+ d +:+ "/" +:+ y +:+ rest)) =
  Some (PDate (y +:+ "-" +:+ Py.zfill 2 m +:+ "-" +:+ Py.zfill 2 d)).
Proof.
  intros Hm Hd Hy Hrest.
  set (a := m +:+ "/" +:+ d +:+ "/" +:+ y).
  assert (Hns : forall s, date_piece s = true ->
            all_chars (fun c => negb (Py.isspace c)) s = true).
  { intros s. apply all_chars_impl. by intros c [H _]%andb_prop. }
  assert (Hno : forall c s, Py.isspace c || Ascii.eqb c "/" = true ->
            date_piece s = true -> Py.contains c s = false).
  { intros c s Hc. apply all_chars_contains.
    destruct (Py.isspace c), (Ascii.eqb c "/"); done. }
  assert (Ha : all_chars (fun c => negb (Py.isspace c)) a = true).
  { unfold a. rewrite !all_chars_app, (Hns m Hm), (Hns d Hd), (Hns y Hy). done. }
  assert (Hane : a <> EmptyString) by (unfold a; by destruct m).
  assert (Hasp : Py.contains " " a = false).
  { unfold a. rewrite !contains_app, (Hno " "%char m), (Hno " "%char d),
      (Hno " "%char y); done. }
  assert (Hsplit : Py.split "/" a = [m; d; y]).
  { unfold a. change (m +:+ "/" +:+ d +:+ "/" +:+ y)
      with (m +:+ String "/" (d +:+ String "/" y)).
    rewrite split_app_sep by (by apply Hno).
    rewrite split_app_sep by (by apply Hno).
    rewrite split_no_sep by (by apply Hno). done. }
  assert (Hasl : Py.contains "/" a = true).
  { unfold a. rewrite !contains_app. cbn. by rewrite !orb_true_r. }
  assert (Hstrip : Py.strip (a +:+ rest) = a +:+ Py.rstrip rest).
  { unfold Py.strip. rewrite lstrip_app by done. by apply rstrip_app. }
  assert (Hpart : date_part (Text (a +:+ rest)) = a).
  { unfold date_part. cbn [str]. rewrite Hstrip.
    destruct (rstrip_after_space rest Hrest) as [->|[t ->]].
    - by rewrite append_nil_r, Hasp.
    - rewrite contains_app, Hasp. cbn [Py.contains orb]. cbn.
      by rewrite split_app_sep. }
  replace (m +:+ "/" +:+ d +:+ "/" +:+ y +:+ rest) with (a +:+ rest)
    by (unfold a; by rewrite !append_assoc).
  unfold format_date. fold (date_part (Text (a +:+ rest))).
  rewrite Hpart, Hasl, Hsplit. cbn [notna str andb].
  rewrite Hstrip. by destruct a.
Qed.

Lemma format_date_mdy_witness :
  format_date (Text "4/3/2025 08:39") = Some (PDate "2025-04-03").
Proof.
  apply (format_date_mdy "4" "3" "2025" " 08:39"); try reflexivity.
  right. by exists "08:39".
Defined.

(** ** Bulk import: what it touches, how many ids it returns *)










(** ** get_items *)

(** X9. [get_items] posts exactly one request in every case and hands back
    what the remote said: it looks neither at the HTTP status nor for an
    [errors] member, so any body that decodes is returned as it is, and it
    has no handler, so it raises exactly when the transport raises or the
    body does not decode. *)
Theorem get_items_outcomes (self : Board) (limit : Z) (w : World) :
  let req := items_request self limit in
  let answer := remote w (length (sent w)) req in
  snd (get_items self limit w) = log_request req w /\
  (forall v, fst (get_items self limit w) = Return v <->
             exists r, answer = Return r /\ body r = Some v) /\
  (forall e, fst (get_items self limit w) = Raise e <->
             answer = Raise e \/
             exists r, answer = Return r /\ body r = None /\ e = JSONDecodeError).
Proof.
  intros req answer. unfold get_items, bind, post, lift_result, response_json.
  fold req. fold answer.
  destruct answer as [r|e0]; cbn [fst snd].
  - destruct (body r) as [v0|] eqn:Hb; cbn [fst snd]; split; try done; split.
    + intros v. split.
      * intros [= <-]. by exists r.
      * intros (r' & [= <-] & Hb'). congruence.
    + intros e. split; [done|].
      intros [H|(r' & [= <-] & Hb' & _)]; congruence.
    + intros v. split; [done|]. intros (r' & [= <-] & Hb'). congruence.
    + intros e. split.
      * intros [= <-]. right. by exists r.
      * intros [H|(r' & _ & _ & ->)]; done.
  - split; [done|]. split.
    + intros v. split; [done|]. by intros (r' & H & _).
    + intros e. split.
      * intros [= <-]. by left.
      * intros [[= <-]|(r' & H & _)]; done.
Qed.

(** ** boardGen as an upsert *)

Lemma triple_for_each_Forall {S A} (I : S -> Prop) (f : A -> M S unit)
    (l : list A) :
  Forall (fun x => triple I (f x) (fun _ => I) I) l ->
  triple I (for_each f l) (fun _ => I) I.
Proof.
  induction 1 as [|x l Hx _ IH]; cbn [for_each].
  - by apply triple_ret.
  - eapply triple_bind; [exact Hx | intros u; exact IH].
Qed.

Lemma input_keeps (p : string) (w : World) :
  file (snd (input p w)) = file w /\
  columns_reply (snd (input p w)) = columns_reply w /\
  schema_queries (snd (input p w)) = schema_queries w.
Proof. unfold input. by destruct (stdin w). Qed.

Lemma prompt_missing_respects (J : Frame -> Prop) :
  frame_respects J -> triple J prompt_missing (fun _ => J) J.
Proof.
  intros (Hw & Hk & Hb).
  assert (Hask : forall p set,
            (forall line f, J f -> J (set (Some line) f)) ->
            triple J (bind (liftW (input p)) (fun line => modify (set (Some line))))
              (fun _ => J) J).
  { intros p set Hset. eapply triple_bind with (R := fun _ => J).
    - intros f Hf. unfold liftW.
      destruct (input_keeps p (world f)) as (H1 & H2 & H3).
      destruct (input p (world f)) as [[line|e] w']; cbn [snd] in *; by apply Hw.
    - intros line. apply triple_modify. apply Hset. }
  unfold prompt_missing.
  eapply triple_bind; [apply triple_gets|]. intros k.
  eapply triple_bind with (R := fun _ => J).
  { destruct k as [k'|].
    - apply triple_ret. by intros f [H _].
    - eapply triple_weaken; [apply Hask| | |]; try done.
      + intros line f. apply Hk.
      + by intros f [H _]. }
  intros u. eapply triple_bind; [apply triple_gets|]. intros b.
  destruct b as [b'|].
  - apply triple_ret. by intros f [H _].
  - eapply triple_weaken; [apply Hask| | |]; try done.
    + intros line f. apply Hb.
    + by intros f [H _].
Qed.

Lemma scan_board_respects (J : Frame -> Prop) (name : string) (entry : BoardEntry) :
  frame_respects J -> triple J (scan_board name entry) (fun _ => J) J.
Proof.
  intros HJ. unfold scan_board. destruct (decide (e_name entry = name)).
  - destruct HJ as (_ & Hk & Hb).
    eapply triple_bind with (R := fun _ => J); [|intros u];
      apply triple_modify; intros f; [apply Hb | apply Hk].
  - by apply prompt_missing_respects.
Qed.

Lemma gen_loaded_respects (w0 : World) (k : nat) : frame_respects (gen_loaded w0 k).
Proof.
  split; [|split].
  - intros f w' H1 H2 H3 [(Hf & Hr & Hq) Hb]. split; [|done].
    split; [|split]; cbn; congruence.
  - by intros f v.
  - by intros f v.
Qed.

Lemma gen_start_respects (w0 : World) (k : nat) : frame_respects (gen_start w0 k).
Proof.
  split; [|split].
  - intros f w' H1 H2 H3 [(Hf & Hr & Hq) Hb]. split; [|done].
    split; [|split]; cbn; congruence.
  - by intros f v.
  - by intros f v.
Qed.

Lemma store_entry_stores (w0 : World) (name : string) (k : nat) :
  triple (gen_loaded w0 k) (store_entry name)
    (fun _ => gen_stored w0 name (S k)) (gen_loaded w0 (S k)).
Proof.
  intros f [(Hf & Hr & Hq) Hb].
  unfold store_entry, bind, gets, liftW, importBoardColumns, modify, raise.
  rewrite Hr.
  destruct (columns_reply w0 (length (schema_queries (world f)))
              (l_apiKey f) (l_boardID f)) as [rs|e] eqn:Hreply; cbn.
  - rewrite Hb. cbn. split; [done|]. split.
    + unfold queries_added. cbn. rewrite length_app. cbn. lia.
    + eexists. split; [reflexivity|].
      exists (length (schema_queries (world f))), rs.
      split; [done|]. split; [done|]. cbn. split.
      * rewrite length_app. cbn. lia.
      * by rewrite lookup_app_r, Nat.sub_diag.
  - split; [|done]. split; [done|]. split; [done|]. cbn.
    rewrite length_app. cbn. lia.
Qed.

Lemma save_saves (w0 : World) (name : string) (k : nat) (E : Frame -> Prop) :
  triple (gen_stored w0 name k) save (fun _ => gen_saved w0 name k) E.
Proof.
  intros f (Hf & Hq & boards & Hb & Hs).
  unfold save, bind, gets, liftW, json_dump, modify. cbn.
  split; [done|]. exists boards. split; [done|]. split; [done|].
  by rewrite Hb.
Qed.

Lemma gen_world_mono (w0 : World) (k k' : nat) (f : Frame) :
  (k <= k')%nat -> gen_world w0 k f -> gen_world w0 k' f.
Proof. intros Hk (Hf & Hr & Hq). split; [done|]. split; [done|]. lia. Qed.

Lemma boardGen_try_stores (w0 : World) (name : string) :
  triple (fun f => gen_world w0 0 f /\ Boards (l_fileDict f) = None)
    (boardGen_try name) (fun _ => gen_saved w0 name 1) (gen_start w0 1).
Proof.
  unfold boardGen_try.
  eapply triple_bind with
    (R := fun data f => gen_world w0 0 f /\
            Boards data = match file w0 with
                          | Parsed (Some _) => Some (loaded_boards (file w0))
                          | _ => None
                          end /\
            (Boards data = None -> loaded_boards (file w0) = [])).
  { intros f [Hw Hb]. pose proof Hw as (Hf & Hr & Hq).
    assert (Hw1 : gen_world w0 1 (set_world (world f) f))
      by (apply (gen_world_mono w0 0 1); [lia | exact Hw]).
    unfold liftW, json_load. rewrite Hf.
    destruct (file w0) as [| |[ps|]] eqn:Hfile; cbn; rewrite ?Hfile.
    - split; [exact Hw1|]. right. split; [exact Hb | by rewrite Hfile].
    - split; [exact Hw1|]. right. split; [exact Hb | by rewrite Hfile].
    - split; [exact Hw|]. split; rewrite ?Hfile; done.
    - split; [exact Hw|]. split; rewrite ?Hfile; done. }
  intros data. eapply triple_bind with
    (R := fun _ f => gen_world w0 0 f /\ l_fileDict f = data /\
            Boards data = match file w0 with
                          | Parsed (Some _) => Some (loaded_boards (file w0))
                          | _ => None
                          end /\
            (Boards data = None -> loaded_boards (file w0) = [])).
  { apply triple_modify. by intros f (Hw & Hd & Hn). }
  intros u1. eapply triple_bind with (R := fun boards f =>
     gen_loaded w0 0 f /\ boards = loaded_boards (file w0)).
  { destruct (Boards data) as [boards|] eqn:Hdata.
    - apply triple_ret. intros f (Hw & Hf & Hd & _).
      destruct (file w0) as [| |[ps|]] eqn:Hfile; try done.
      injection Hd as ->. split; [|rewrite ?Hfile; done].
      split; [exact Hw|]. rewrite Hf, Hdata, ?Hfile. done.
    - apply triple_raise. intros f (Hw & Hf & _ & Hn). split.
      + apply (gen_world_mono w0 0 1); [lia | exact Hw].
      + right. rewrite Hf, Hdata. split; [done | by apply Hn]. }
  intros boards. eapply triple_bind with (R := fun _ => gen_loaded w0 0).
  { eapply triple_weaken with (P' := gen_loaded w0 0) (E' := gen_loaded w0 0).
    - apply triple_for_each. intros entry.
      apply scan_board_respects, gen_loaded_respects.
    - by intros f [H _].
    - done.
    - intros f [Hw Hb]. split; [|by left].
      apply (gen_world_mono w0 0 1); [lia | exact Hw]. }
  intros u2. eapply triple_bind with (R := fun _ => gen_stored w0 name 1).
  { eapply triple_weaken; [apply store_entry_stores| | |]; try done.
    intros f [Hw Hb]. split; [done | by left]. }
  intros u3. apply save_saves.
Qed.

Lemma boardGen_except_stores (w0 : World) (name : string) :
  triple (gen_start w0 1) (boardGen_except name)
    (fun _ => gen_saved w0 name 2) (fun f => file (world f) = file w0).
Proof.
  unfold boardGen_except.
  eapply triple_bind with (R := fun _ => gen_start w0 1).
  { apply (triple_weaken _ _ _ _ _ _ _
             (prompt_missing_respects _ (gen_start_respects w0 1)));
      [done | done | by intros f [(Hf & _) _]]. }
  intros u1. eapply triple_bind; [apply triple_gets|]. intros fd.
  eapply triple_bind with (R := fun _ => gen_loaded w0 1).
  { destruct (Boards fd) as [boards|] eqn:Hfd.
    - apply triple_ret. intros f [[Hw [Hb|[Hb Hn]]] ->]; [done | congruence].
    - apply triple_modify. intros f [[Hw [Hb|[Hb Hn]]] ->]; [congruence|].
      split; [done|]. cbn. by rewrite Hn. }
  intros u2. eapply triple_bind with (R := fun _ => gen_stored w0 name 2).
  { apply (triple_weaken _ _ _ _ _ _ _ (store_entry_stores w0 name 1));
      [done | done | by intros f [(Hf & _) _]]. }
  intros u3. apply save_saves.
Qed.

Lemma boardGen_frame_stores (name : string) (boardID apiKey : option string)
    (w : World) :
  match boardGen_frame name boardID apiKey w with
  | (Return _, f) => gen_saved w name 2 f
  | (Raise _, f) => file (world f) = file w
  end.
Proof.
  unfold boardGen_frame.
  apply (triple_try_catch
           (fun f => gen_world w 0 f /\ Boards (l_fileDict f) = None)
           (boardGen_try name) (fun _ => boardGen_except name)
           (fun _ => gen_saved w name 2) (gen_start w 1)
           (fun f => file (world f) = file w)).
  - apply (triple_weaken _ _ _ _ _ _ _ (boardGen_try_stores w name)).
    + done.
    + intros u f (Hq & boards & Hb). split; [|by exists boards].
      unfold queries_added in *. lia.
    + done.
  - intros e. apply boardGen_except_stores.
  - split; [|done]. split; [done|]. split; [done|]. cbn [world]. lia.
Qed.

(** X10. [boardGen] is an upsert. Whenever it returns, the dictionary it
    returns holds, under the resolved board id, an entry for the requested
    name whose columns are the remote's reply to the last schema query of
    this call, a query made for the resolved key and id; every other board
    of the file is still there, unchanged; the file now holds exactly the
    returned boards; and one or two schema queries were made. *)
Theorem boardGen_upsert (name : string) (boardID apiKey : option string)
    (w : World) (key : FileDict) (w' : World) :
  boardGen name boardID apiKey w = (Return key, w') ->
  exists b k rs boards,
    Boards key = Some boards /\
    (exists n,
       (length (schema_queries w) <= n)%nat /\
       S n = length (schema_queries w') /\
       schema_queries w' !! n = Some (k, b) /\
       columns_reply w n k b = Return rs) /\
    dict_get b boards = Some (new_entry name b k (column_dict rs)) /\
    (forall b', b' <> b ->
       dict_get b' boards = dict_get b' (loaded_boards (file w))) /\
    file w' = Parsed (Some (dumped_boards boards)) /\
    (length (schema_queries w) + 1 <= length (schema_queries w')
     <= length (schema_queries w) + 2)%nat.
Proof.
  intros Hrun. unfold boardGen in Hrun.
  pose proof (boardGen_frame_stores name boardID apiKey w) as H.
  destruct (boardGen_frame name boardID apiKey w) as [[[]|e] f]; [|done].
  injection Hrun as <- <-.
  destruct H as (Hq & boards & Hb & (n & rs & Hreply & -> & Hn & Hlog) & Hfile).
  exists (l_boardID f), (l_apiKey f), rs. eexists. split; [exact Hb|].
  split.
  { exists n. split; [unfold queries_added in Hq; lia|]. done. }
  split; [apply dict_get_set_eq|].
  split; [|split; [exact Hfile | exact Hq]].
  intros b' Hb'. by apply dict_get_set_ne.
Qed.

Lemma boardGen_upsert_witness :
  exists key w' boards b k rs n,
    boardGen "Target" None None strict_world = (Return key, w') /\
    Boards key = Some boards /\
    file w' = Parsed (Some (dumped_boards boards)) /\
    S n = length (schema_queries w') /\
    schema_queries w' !! n = Some (k, b) /\
    columns_reply strict_world n k b = Return rs /\
    dict_get b boards = Some (new_entry "Target" b k (column_dict rs)).
Proof.
  destruct (boardGen "Target" None None strict_world) as [[key|e] w'] eqn:Hrun;
    [|vm_compute in Hrun; discriminate Hrun].
  destruct (boardGen_upsert "Target" None None strict_world key w' Hrun)
    as (b & k & rs & boards & Hb & (n & _ & Hn & Hlog & Hreply) & Hnew & _
        & Hfile & _).
  by exists key, w', boards, b, k, rs, n.
Defined.

(** ** What is saved is what is read back *)

Lemma dict_of_pairs_fold_NoDup {K V} `{EqDecision K} (ps acc : list (K * V)) :
  NoDup (map fst acc) ->
  NoDup (map fst (fold_left (fun d kv => dict_set (fst kv) (snd kv) d) ps acc)).
Proof.
  revert acc. induction ps as [|[k v] ps IH]; intros acc Hacc; [done|].
  cbn [fold_left]. apply IH. by apply dict_set_NoDup.
Qed.

Lemma dict_of_pairs_fold_id {K V} `{EqDecision K} (l acc : list (K * V)) :
  NoDup (map fst (acc ++ l)) ->
  fold_left (fun d kv => dict_set (fst kv) (snd kv) d) l acc = acc ++ l.
Proof.
  revert acc. induction l as [|[k v] l IH]; intros acc Hnd.
  - by rewrite app_nil_r.
  - cbn [fold_left fst snd]. rewrite dict_set_keys_fresh.
    + rewrite IH; rewrite <- app_assoc; done.
    + rewrite map_app in Hnd. apply NoDup_app in Hnd as (_ & Hdisj & _).
      intros Hin. apply (Hdisj k Hin). cbn. left.
Qed.

Lemma dict_of_pairs_values {K V} `{EqDecision K} (P : V -> Prop)
    (ps acc : list (K * V)) :
  Forall P (map snd ps) -> Forall P (map snd acc) ->
  Forall P (map snd (fold_left (fun d kv => dict_set (fst kv) (snd kv) d) ps acc)).
Proof.
  revert acc. induction ps as [|[k v] ps IH]; intros acc Hps Hacc; [done|].
  cbn [map] in Hps. apply Forall_cons in Hps as [Hv Hps].
  cbn [fold_left]. apply IH; [done|]. cbn [fst snd].
  clear IH Hps. induction acc as [|[k' v'] acc IHa]; cbn.
  - by constructor.
  - cbn [map] in Hacc. apply Forall_cons in Hacc as [Hv' Hacc].
    destruct (decide (k' = k)); cbn; constructor; auto.
Qed.

Lemma NoDup_map_inj {A B} (f : A -> B) (l : list A) :
  (forall x y, x ∈ l -> y ∈ l -> f x = f y -> x = y) ->
  NoDup l -> NoDup (map f l).
Proof.
  intros Hf Hl. change (map f l) with (f <$> l). by apply NoDup_fmap_2_strong.
Qed.

Lemma loaded_boards_NoDup (f : FileContent) : NoDup (map fst (loaded_boards f)).
Proof.
  destruct f as [| |[ps|]]; cbn [loaded_boards map]; try constructor.
  rewrite map_map. cbn [fst].
  rewrite <- (map_map fst Some). apply NoDup_map_inj.
  - intros x y _ _. congruence.
  - unfold dict_of_pairs. apply dict_of_pairs_fold_NoDup. constructor.
Qed.

Lemma reload_dumped (boards : list (option string * BoardEntry)) :
  NoDup (map fst boards) -> Forall (fun kv => fst kv <> None) boards ->
  map (fun kv => (Some (fst kv), snd kv)) (dict_of_pairs (dumped_boards boards))
  = boards.
Proof.
  intros Hnd Hkeys.
  assert (Hd : NoDup (map fst (dumped_boards boards))).
  { unfold dumped_boards. rewrite map_map. cbn [fst].
    rewrite <- (map_map fst json_key).
    apply NoDup_map_inj; [|done].
    intros x y Hx Hy Hxy.
    assert (Hsome : forall z, z ∈ map fst boards -> z <> None).
    { intros z Hz. change (map fst boards) with (fst <$> boards) in Hz.
      apply list_elem_of_fmap in Hz as [[k e] [-> Hin]].
      rewrite Forall_forall in Hkeys. exact (Hkeys _ Hin). }
    pose proof (Hsome x Hx). pose proof (Hsome y Hy).
    destruct x, y; cbn in Hxy; congruence. }
  unfold dict_of_pairs. rewrite dict_of_pairs_fold_id by done. cbn [app].
  unfold dumped_boards. clear Hnd Hd.
  induction Hkeys as [|[k e] boards Hk _ IH]; [done|].
  cbn [map]. rewrite IH. cbn [fst snd]. by destruct k.
Qed.

(** X11. What [boardGen] returns is what it saved: when the call returns
    (the remote refusing a schema query without a board id), reading the
    configuration file again yields exactly the returned dictionary. *)
Theorem boardGen_saved_is_reloaded (name : string) (boardID apiKey : option string)
    (w : World) (key : FileDict) (w' : World)
    (Hnull : rejects_null_board (columns_reply w)) :
  boardGen name boardID apiKey w = (Return key, w') ->
  json_load w' = (Return key, w').
Proof.
  intros Hrun.
  destruct (boardGen_returns_keys _ Hnull name boardID apiKey w key w' eq_refl Hrun)
    as (boards & HB & Hkeys).
  unfold boardGen in Hrun.
  pose proof (boardGen_frame_stores name boardID apiKey w) as H.
  destruct (boardGen_frame name boardID apiKey w) as [[[]|e] f]; [|done].
  injection Hrun as <- <-.
  destruct H as (_ & boards' & Hb & (n & rs & _ & Hset & _) & Hfile).
  rewrite HB in Hb. injection Hb as <-.
  unfold json_load. rewrite Hfile. cbn [option_map].
  rewrite reload_dumped; [| |done].
  - destruct (l_fileDict f) as [bs]. cbn in HB. by rewrite HB.
  - rewrite Hset. apply dict_set_NoDup, loaded_boards_NoDup.
Qed.

Lemma boardGen_saved_is_reloaded_witness :
  exists key w',
    boardGen "Target" None None strict_world = (Return key, w') /\
    json_load w' = (Return key, w').
Proof.
  assert (Hnull : rejects_null_board (columns_reply strict_world)).
  { intros n k. exists KeyError. reflexivity. }
  destruct (boardGen "Target" None None strict_world) as [[key|e] w'] eqn:Hrun;
    [|vm_compute in Hrun; discriminate Hrun].
  exists key, w'. split; [done|].
  exact (boardGen_saved_is_reloaded "Target" None None strict_world key w'
           Hnull Hrun).
Defined.

(** ** Invariants of [boardGen] that need both values to be known *)

Section BoardGenKeeps.
Variable w0 : World.
Variable name : string.
Variables I I' : Frame -> Prop.
Variable okE : BoardEntry -> Prop.
Hypothesis Hworld : forall f w',
  file w' = file (world f) -> prompts w' = prompts (world f) ->
  stdin w' = stdin (world f) -> I f -> I (set_world w' f).
Hypothesis Hdict : forall f d, I f -> I (set_fileDict d f).
Hypothesis Hknown : forall f, I f -> is_Some (l_apiKey f) /\ is_Some (l_boardID f).
Hypothesis Hmatch : forall e f,
  okE e -> e_name e = name -> I f ->
  I (set_apiKey (p_apiKey (properties e)) (set_boardID (p_board (properties e)) f)).
Hypothesis Hfile : forall f, I f -> file (world f) = file w0.
Hypothesis Hsave : forall f w',
  prompts w' = prompts (world f) -> stdin w' = stdin (world f) ->
  I f -> I' (set_world w' f).
Hypothesis Hweak : forall f, I f -> I' f.
Hypothesis Hentries : Forall okE (file_entries (file w0)).

Lemma prompt_missing_known (f : Frame) :
  is_Some (l_apiKey f) -> is_Some (l_boardID f) ->
  prompt_missing f = (Return tt, f).
Proof.
  intros [k Hk] [b Hb]. unfold prompt_missing, bind, gets.
  rewrite Hk. cbn. by rewrite Hb.
Qed.

Lemma keeps_prompt : triple I prompt_missing (fun _ => I) I.
Proof.
  intros f Hf. destruct (Hknown f Hf) as [Hk Hb].
  by rewrite prompt_missing_known.
Qed.

Lemma keeps_scan (e : BoardEntry) :
  okE e -> triple I (scan_board name e) (fun _ => I) I.
Proof.
  intros He. unfold scan_board. destruct (decide (e_name e = name)) as [Hn|Hn].
  - intros f Hf. cbn. by apply Hmatch.
  - apply keeps_prompt.
Qed.

Lemma keeps_store : triple I (store_entry name) (fun _ => I) I.
Proof.
  intros f Hf.
  unfold store_entry, bind, gets, liftW, importBoardColumns, modify, raise.
  assert (Hlog : I (set_world
                      (log_schema_query (l_apiKey f, l_boardID f) (world f)) f))
    by (by apply Hworld).
  destruct (columns_reply (world f) _ (l_apiKey f) (l_boardID f)) as [rs|e]; cbn.
  - destruct (Boards (l_fileDict f)) as [boards|]; cbn; [|exact Hlog].
    by apply (Hdict _ _ Hlog).
  - exact Hlog.
Qed.

Lemma keeps_save (E : Frame -> Prop) : triple I save (fun _ => I') E.
Proof. intros f Hf. cbn. by apply Hsave. Qed.

Lemma keeps_try : triple I (boardGen_try name) (fun _ => I') I.
Proof.
  unfold boardGen_try.
  eapply triple_bind with
    (R := fun data f => I f /\
            forall boards, Boards data = Some boards ->
                           Forall okE (map snd boards)).
  { intros f Hf. pose proof (Hfile f Hf) as Hfl.
    assert (Hsame : I (set_world (world f) f)) by (by apply Hworld).
    unfold liftW, json_load. rewrite Hfl.
    destruct (file w0) as [| |[ps|]] eqn:Hw0; cbn; try done.
    split; [done|]. intros boards [= <-]. rewrite map_map. cbn [snd].
    unfold dict_of_pairs.
    change (fun x : string * BoardEntry => snd x) with (@snd string BoardEntry).
    apply dict_of_pairs_values; [|constructor].
    exact Hentries. }
  intros data. eapply triple_bind with
    (R := fun _ f => I f /\
            forall boards, Boards data = Some boards ->
                           Forall okE (map snd boards)).
  { apply triple_modify. intros f [Hf Hd]. split; [by apply Hdict | done]. }
  intros u1. eapply triple_bind with
    (R := fun boards f => I f /\ Forall okE (map snd boards)).
  { destruct (Boards data) as [boards|].
    - apply triple_ret. intros f [Hf Hd]. split; [done | by apply Hd].
    - apply triple_raise. by intros f [Hf _]. }
  intros boards. eapply triple_bind with (R := fun _ => I).
  { intros f [Hf Hall]. revert f Hf.
    change (triple I (for_each (scan_board name) (map snd boards)) (fun _ => I) I).
    apply triple_for_each_Forall.
    eapply Forall_impl; [exact Hall|]. intros e. apply keeps_scan. }
  intros u2. eapply triple_bind; [apply keeps_store|].
  intros u3. apply keeps_save.
Qed.

Lemma keeps_except : triple I (boardGen_except name) (fun _ => I') I'.
Proof.
  unfold boardGen_except.
  eapply triple_bind with (R := fun _ => I).
  { apply (triple_weaken _ _ _ _ _ _ _ keeps_prompt); auto. }
  intros u1. eapply triple_bind; [apply triple_gets|]. intros fd.
  eapply triple_bind with (R := fun _ => I).
  { destruct (Boards fd).
    - apply triple_ret. by intros f [H _].
    - apply triple_modify. intros f [H _]. by apply Hdict. }
  intros u2. eapply triple_bind with (R := fun _ => I).
  { apply (triple_weaken _ _ _ _ _ _ _ keeps_store); auto. }
  intros u3. apply keeps_save.
Qed.

Lemma keeps_frame (boardID apiKey : option string) (w : World) :
  I {| world := w; l_boardID := boardID; l_apiKey := apiKey;
       l_fileDict := {| Boards := None |} |} ->
  I' (snd (boardGen_frame name boardID apiKey w)).
Proof.
  intros H0. unfold boardGen_frame.
  pose proof (triple_try_catch I (boardGen_try name)
                (fun _ => boardGen_except name) (fun _ => I') I I'
                keeps_try (fun _ => keeps_except) _ H0) as H.
  by destruct (try_catch _ _ _) as [[[]|e] f].
Qed.
End BoardGenKeeps.

(** X12. With both the board id and the API key supplied, and a
    configuration file whose entries all store both values, [boardGen] asks
    nothing and reads nothing from standard input, whether it returns or
    raises. *)
Theorem boardGen_asks_nothing_when_supplied (name b k : string) (w : World)
    (Hentries : Forall entry_complete (file_entries (file w))) :
  prompts (snd (boardGen name (Some b) (Some k) w)) = prompts w /\
  stdin (snd (boardGen name (Some b) (Some k) w)) = stdin w.
Proof.
  assert (H : quiet w (snd (boardGen_frame name (Some b) (Some k) w))).
  { apply (keeps_frame w name (quiet_before_save w) (quiet w) entry_complete).
    - intros f w' Hf Hp Hs [(Hk & Hb & Hp' & Hs') Hf']. repeat split; cbn; congruence.
    - by intros f d.
    - by intros f [(Hk & Hb & _) _].
    - intros e f [Hb Hk] _ [(_ & _ & Hp & Hs) Hf]. by repeat split.
    - by intros f [_ Hf].
    - intros f w' Hp Hs [(Hk & Hb & Hp' & Hs') _]. repeat split; cbn; congruence.
    - by intros f [H _].
    - exact Hentries.
    - repeat split; cbn; eauto. }
  unfold boardGen.
  destruct (boardGen_frame name (Some b) (Some k) w) as [[[]|e] f];
    by destruct H as (_ & _ & Hp & Hs).
Qed.

Lemma boardGen_asks_nothing_when_supplied_witness :
  prompts (snd (boardGen "Target" (Some "9") (Some "k9") two_boards_world)) = [] /\
  stdin (snd (boardGen "Target" (Some "9") (Some "k9") two_boards_world))
    = ["typed key"; "typed id"].
Proof.
  apply (boardGen_asks_nothing_when_supplied "Target" "9" "k9" two_boards_world).
  repeat constructor; cbn; eauto.
Defined.

(** ** A board that is not on file yet *)

Lemma boardGen_frame_supplied (name b k : string) (w : World) :
  Forall (fun e => e_name e <> name) (file_entries (file w)) ->
  supplied w b k (snd (boardGen_frame name (Some b) (Some k) w)).
Proof.
  intros Hentries.
  apply (keeps_frame w name (supplied_before_save w b k) (supplied w b k)
           (fun e => e_name e <> name)).
  - intros f w' Hf _ _ [Hs Hf']. split; [done|]. cbn. congruence.
  - by intros f d.
  - intros f [[Hb Hk] _]. rewrite Hb, Hk. eauto.
  - intros e f Hne Hn. done.
  - by intros f [_ Hf].
  - by intros f w' _ _ [Hs _].
  - by intros f [H _].
  - exact Hentries.
  - by repeat split.
Qed.

(** X13. A first [Board(name, boardID, apiKey)] for a name that no entry of
    the configuration file carries: when it returns, the board is exactly
    the new one (the supplied id and key, the fixed endpoint, the key as
    authorization header, and the column map of a schema reply of the
    remote for that key and id); it returns whenever [boardGen] does, and
    when it raises, the exception is [boardGen]'s own: the lookup by the
    supplied id cannot fail. *)
Theorem Board_init_new_board (name b k : string) (w : World)
    (Hnew : Forall (fun e => e_name e <> name) (file_entries (file w))) :
  (forall key w', boardGen name (Some b) (Some k) w = (Return key, w') ->
     exists n rs,
       columns_reply w n (Some k) (Some b) = Return rs /\
       Board_init name (Some b) (Some k) w = (Return (new_board name b k rs), w')) /\
  (forall e w', boardGen name (Some b) (Some k) w = (Raise e, w') ->
     Board_init name (Some b) (Some k) w = (Raise e, w')).
Proof.
  pose proof (boardGen_frame_supplied name b k w Hnew) as Hsup.
  pose proof (boardGen_frame_stores name (Some b) (Some k) w) as Hst.
  unfold Board_init, bind, boardGen.
  destruct (boardGen_frame name (Some b) (Some k) w) as [[[]|e] f];
    cbn [snd] in Hsup; split.
  - intros key w' [= <- <-].
    destruct Hst as (_ & boards & Hb & (n & rs & Hreply & -> & _) & _).
    destruct Hsup as [Hid Hkey]. rewrite Hid, Hkey in *.
    exists n, rs. split; [exact Hreply|].
    rewrite Hb, dict_get_set_eq. reflexivity.
  - by intros e w' [=].
  - by intros key w' [=].
  - by intros e' w' [= <- <-].
Qed.

Lemma Board_init_new_board_witness :
  exists n rs,
    columns_reply strict_world n (Some "k9") (Some "9") = Return rs /\
    fst (Board_init "Fresh" (Some "9") (Some "k9") strict_world)
      = Return (new_board "Fresh" "9" "k9" rs).
Proof.
  assert (Hnew : Forall (fun e => e_name e <> "Fresh")
                   (file_entries (file strict_world)))
    by (repeat constructor; discriminate).
  destruct (boardGen "Fresh" (Some "9") (Some "k9") strict_world)
    as [[key|e] w'] eqn:Hrun; [|vm_compute in Hrun; discriminate Hrun].
  destruct (proj1 (Board_init_new_board "Fresh" "9" "k9" strict_world Hnew)
              key w' Hrun) as (n & rs & Hreply & Hinit).
  exists n, rs. split; [exact Hreply|]. by rewrite Hinit.
Defined.

Lemma column_dict_domain (cols : list ColumnRecord) (t : string) :
  is_Some (column_dict cols !! t) <-> t ∈ map col_title cols.
Proof.
  induction cols as [|c cols IH] using rev_ind.
  - split; [by intros [? ?] | intros H; by apply elem_of_nil in H].
  - rewrite column_dict_snoc, map_app. cbn [map].
    rewrite elem_of_app, list_elem_of_singleton, <- IH.
    destruct (decide (col_title c = t)) as [->|Hne].
    + rewrite lookup_insert_eq. split; [by right | eauto].
    + rewrite lookup_insert_ne by done. split; [by left|].
      intros [H|H]; [done | congruence].
Qed.

(** X14. Composition of the schema import with the single-column update:
    on a board built from a schema reply, [update_column_value] posts a
    request exactly for the titles that occur in the reply, and raises
    [ValueError] without sending anything for every other title. *)
Theorem update_knows_schema_titles (name b k : string) (rs : list ColumnRecord)
    (item_id title value : string) (w : World) :
  let board := new_board name b k rs in
  (title ∈ map col_title rs ->
   exists info,
     column_dict rs !! title = Some info /\
     sent (snd (update_column_value board item_id title value w))
       = sent w ++ [update_request board item_id (id info) value]) /\
  (title ∉ map col_title rs ->
   update_column_value board item_id title value w = (Raise ValueError, w)).
Proof.
  intros board. unfold update_column_value. cbn [self_columns board new_board].
  split.
  - intros Hin. apply column_dict_domain in Hin as [info Hinfo].
    exists info. split; [done|]. rewrite Hinfo.
    unfold bind, post, lift_result.
    by destruct (remote w _ _) as [r|e].
  - intros Hout. destruct (column_dict rs !! title) as [info|] eqn:Hl; [|done].
    exfalso. apply Hout, column_dict_domain. by exists info.
Qed.

Lemma update_knows_schema_titles_witness :
  update_column_value
    (new_board "Demo" "42" "secret"
       [ {| col_id := "name"; col_title := "Name" |};
         {| col_id := "text7"; col_title := "Status" |} ])
    "1" "Due" "tomorrow" offline
  = (Raise ValueError, offline).
Proof.
  apply (update_knows_schema_titles "Demo" "42" "secret").
  intros Hin. repeat (apply elem_of_cons in Hin as [Hin|Hin]; [discriminate Hin|]).
  by apply elem_of_nil in Hin.
Defined.

(** ** What a bulk import sends for a row *)

Lemma add_cells_members (name_column : option string) (row : Row)
    (acc : list (string * cell)) (P : string * cell -> Prop) :
  NoDup (map fst acc) ->
  (forall tv, tv ∈ acc -> P tv) ->
  (forall t v, (t, v) ∈ row -> notna v = true -> Some t <> name_column -> P (t, v)) ->
  NoDup (map fst (fold_left (add_cell name_column) row acc)) /\
  forall tv, tv ∈ fold_left (add_cell name_column) row acc -> P tv.
Proof.
  revert acc. induction row as [|[t v] row IH]; intros acc Hnd Hacc Hrow; [done|].
  cbn [fold_left]. apply IH.
  - unfold add_cell.
    destruct (negb (bool_decide (Some t = name_column)) && notna v);
      [by apply dict_set_NoDup | done].
  - intros tv Htv. unfold add_cell in Htv.
    destruct (bool_decide_reflect (Some t = name_column)) as [Heq|Hne];
      cbn [negb andb] in Htv; [by apply Hacc|].
    destruct (notna v) eqn:Hv; [|by apply Hacc].
    apply dict_set_elem in Htv as [->|Htv]; [|by apply Hacc].
    apply Hrow; [left | done | done].
  - intros t' v' Hin. apply Hrow. by right.
Qed.

(** X15. For every row of a bulk import, each member of the payload sent
    stems from a cell of the row that is not missing, is not filed under
    [name_column] and whose title the board knows; its key is the id of
    that column, and no key occurs twice. *)
Theorem upload_row_payload (self : Board) (name_column : option string)
    (row : Row) :
  NoDup (map fst (resolve_columns self (row_column_values name_column row))) /\
  forall k p,
    (k, p) ∈ resolve_columns self (row_column_values name_column row) ->
    exists t v info,
      (t, v) ∈ row /\ notna v = true /\ Some t <> name_column /\
      self_columns self !! t = Some info /\ id info = k.
Proof.
  destruct (add_cells_members name_column row []
              (fun tv => tv ∈ row /\ notna (snd tv) = true /\
                         Some (fst tv) <> name_column)) as [_ Hcells].
  { constructor. }
  { intros tv Htv. by apply elem_of_nil in Htv. }
  { by intros t v Hin Hv Hne. }
  destruct (resolve_fold_entries self (row_column_values name_column row) []
    (fun kp => exists t v info,
       (t, v) ∈ row /\ notna v = true /\ Some t <> name_column /\
       self_columns self !! t = Some info /\ id info = fst kp)) as [Hnd Hall].
  - constructor.
  - intros kp Hkp. by apply elem_of_nil in Hkp.
  - intros t v info Hin Hcol p _.
    destruct (Hcells (t, v) Hin) as (Hrow & Hv & Hne).
    by exists t, v, info.
  - split; [exact Hnd|]. intros k p Hkp. exact (Hall (k, p) Hkp).
Qed.

(** ** The values of a board found on file *)














(** ** A failed configuration load *)

(** X17. A [boardGen] that raises has not written the configuration file:
    the file is saved only once the entry has been stored, and nothing can
    fail after that. *)
Theorem boardGen_failure_keeps_file (name : string)
    (boardID apiKey : option string) (w : World) (e : exn) (w' : World) :
  boardGen name boardID apiKey w = (Raise e, w') -> file w' = file w.
Proof.
  intros Hrun. unfold boardGen in Hrun.
  pose proof (boardGen_frame_stores name boardID apiKey w) as H.
  destruct (boardGen_frame name boardID apiKey w) as [[[]|x] f]; [done|].
  by injection Hrun as _ <-.
Qed.

Lemma boardGen_failure_keeps_file_witness :
  file (snd (boardGen "Target" None None
               (constant_world (Raise RequestException) (Raise KeyError)
                  two_boards ["typed key"; "typed id"])))
  = two_boards.
Proof.
  destruct (boardGen "Target" None None
              (constant_world (Raise RequestException) (Raise KeyError)
                 two_boards ["typed key"; "typed id"])) as [[key|e] w'] eqn:Hrun;
    [vm_compute in Hrun; discriminate Hrun|].
  exact (boardGen_failure_keeps_file _ _ _ _ e w' Hrun).
Defined.
